(** * silver-surfer, [pkg/Cluster.go]: the cluster handle and the object fetcher

    A shallow embedding of [pkg/Cluster.go] and the properties its
    specification states about it.

    Go strings are byte sequences, so they are [string] here (one [ascii] per
    byte).  Calls into the Kubernetes client libraries and the operating
    system are answered by the fields of two records ([Cluster] for a
    connected handle, [Host] for the process environment); every such call,
    and every line printed, is appended to a trace of [event]s, and a Go
    [panic] is an outcome of its own. *)

From stdpp Require Import gmap strings list.
From Stdlib Require Import ZArith Ascii String Bool Lia.

#[local] Set Warnings "-register-all".
#[local] Open Scope string_scope.
#[local] Open Scope list_scope.
#[local] Open Scope Z_scope.

(* ===================================================================== *)
(** * The Go standard library, as far as [Cluster.go] calls it            *)
(* ===================================================================== *)

(** An [error] is modelled by the message its [Error()] method returns. *)
Definition error := string.

(** Package [unicode/utf8]. *)
Module utf8.

Definition RuneError : Z := 0xFFFD.
Definition RuneSelf : Z := 0x80.

Definition byte (c : ascii) : Z := Z.of_N (N_of_ascii c).

(** [skip n s] is the Go slice [s[n:]]. *)
Fixpoint skip (n : nat) (s : string) : string :=
  match n, s with
  | S n', String _ s' => skip n' s'
  | _, _ => s
  end.

(** The [first] table together with [acceptRanges]: for a lead byte of a
    multi-byte sequence, the length of the sequence and the range allowed
    for its second byte.  [None] is the table's [xx] (an invalid lead
    byte); ASCII bytes are handled before the table is consulted. *)
Definition first (s0 : Z) : option (nat * Z * Z) :=
  if s0 <? 0xC2 then None
  else if s0 <? 0xE0 then Some (2%nat, 0x80, 0xBF)
  else if s0 =? 0xE0 then Some (3%nat, 0xA0, 0xBF)
  else if s0 =? 0xED then Some (3%nat, 0x80, 0x9F)
  else if s0 <? 0xF0 then Some (3%nat, 0x80, 0xBF)
  else if s0 =? 0xF0 then Some (4%nat, 0x90, 0xBF)
  else if s0 <? 0xF4 then Some (4%nat, 0x80, 0xBF)
  else if s0 =? 0xF4 then Some (4%nat, 0x80, 0x8F)
  else None.

Definition cont (b : Z) : bool := (0x80 <=? b) && (b <=? 0xBF).

(** [DecodeRuneInString]: the first rune of [s] and its width in bytes;
    [(RuneError, 0)] on the empty string and [(RuneError, 1)] on an
    invalid encoding. *)
Definition DecodeRuneInString (s : string) : Z * nat :=
  match s with
  | EmptyString => (RuneError, 0%nat)
  | String c0 s1 =>
    let s0 := byte c0 in
    if s0 <? RuneSelf then (s0, 1%nat)
    else
      match first s0 with
      | None => (RuneError, 1%nat)
      | Some (sz, lo, hi) =>
        if (String.length s <? sz)%nat then (RuneError, 1%nat)
        else
          match s1 with
          | EmptyString => (RuneError, 1%nat)
          | String c1 s2 =>
            let b1 := byte c1 in
            if (b1 <? lo) || (hi <? b1) then (RuneError, 1%nat)
            else if (sz <=? 2)%nat then
              (Z.lor (Z.shiftl (Z.land s0 0x1F) 6) (Z.land b1 0x3F), 2%nat)
            else
              match s2 with
              | EmptyString => (RuneError, 1%nat)
              | String c2 s3 =>
                let b2 := byte c2 in
                if negb (cont b2) then (RuneError, 1%nat)
                else if (sz <=? 3)%nat then
                  (Z.lor (Z.lor (Z.shiftl (Z.land s0 0x0F) 12)
                                (Z.shiftl (Z.land b1 0x3F) 6))
                         (Z.land b2 0x3F), 3%nat)
                else
                  match s3 with
                  | EmptyString => (RuneError, 1%nat)
                  | String c3 _ =>
                    let b3 := byte c3 in
                    if negb (cont b3) then (RuneError, 1%nat)
                    else
                      (Z.lor (Z.lor (Z.lor (Z.shiftl (Z.land s0 0x07) 18)
                                           (Z.shiftl (Z.land b1 0x3F) 12))
                                    (Z.shiftl (Z.land b2 0x3F) 6))
                             (Z.land b3 0x3F), 4%nat)
                  end
              end
          end
      end
  end.

(** The runes a [for _, r := range s] loop visits.  Every step consumes at
    least one byte, so [String.length s] steps are enough. *)
Fixpoint runes_fuel (fuel : nat) (s : string) : list Z :=
  match fuel, s with
  | S fuel', String _ _ =>
    let '(r, size) := DecodeRuneInString s in
    r :: runes_fuel fuel' (skip size s)
  | _, _ => []
  end.

Definition runes (s : string) : list Z := runes_fuel (String.length s) s.

End utf8.

(** Package [unicode]. *)
Module unicode.

(** [SimpleFold] on the three kinds of orbit that contain an ASCII rune:
    [A <-> a] for the letters other than K and S, [K -> k -> U+212A -> K]
    (the Kelvin sign) and [S -> s -> U+017F -> S] (the long s); every other
    ASCII rune is its own orbit.  Runes outside these orbits are not
    folded here: [strings.EqualFold] reaches them only when neither of the
    two runes it compares is ASCII. *)
Definition SimpleFold (r : Z) : Z :=
  if r =? 0x4B then 0x6B
  else if r =? 0x6B then 0x212A
  else if r =? 0x212A then 0x4B
  else if r =? 0x53 then 0x73
  else if r =? 0x73 then 0x17F
  else if r =? 0x17F then 0x53
  else if (0x41 <=? r) && (r <=? 0x5A) then r + 0x20
  else if (0x61 <=? r) && (r <=? 0x7A) then r - 0x20
  else r.

End unicode.

(** Package [strings]. *)
Module strings.

Fixpoint HasPrefix (s prefix : string) : bool :=
  match prefix, s with
  | EmptyString, _ => true
  | String p prefix', String c s' => Ascii.eqb c p && HasPrefix s' prefix'
  | String _ _, EmptyString => false
  end.

(** [Contains s substr]: [substr] occurs in [s] as a run of bytes
    (a case-sensitive comparison). *)
Fixpoint Contains (s substr : string) : bool :=
  HasPrefix s substr ||
  match s with
  | EmptyString => false
  | String _ s' => Contains s' substr
  end.

Fixpoint HasSuffix (s suffix : string) : bool :=
  String.eqb s suffix ||
  match s with
  | EmptyString => false
  | String _ s' => HasSuffix s' suffix
  end.

(** [ToLower] on ASCII text: the letters [A] to [Z] are mapped, every other
    byte is kept. *)
Definition lower (c : ascii) : ascii :=
  let b := utf8.byte c in
  if (0x41 <=? b) && (b <=? 0x5A) then ascii_of_N (Z.to_N (b + 0x20)) else c.

Fixpoint ToLower (s : string) : string :=
  match s with
  | EmptyString => EmptyString
  | String c s' => String (lower c) (ToLower s')
  end.

Definition inCutset (cutset : string) (c : ascii) : bool :=
  existsb (Ascii.eqb c) (list_ascii_of_string cutset).

Fixpoint TrimLeft (s cutset : string) : string :=
  match s with
  | String c s' => if inCutset cutset c then TrimLeft s' cutset else s
  | EmptyString => s
  end.

(** [s] without its trailing bytes of [cutset]: a byte is dropped when it
    is in the cutset and nothing is kept after it. *)
Fixpoint TrimRight (s cutset : string) : string :=
  match s with
  | String c s' =>
    match TrimRight s' cutset with
    | EmptyString => if inCutset cutset c then EmptyString else String c EmptyString
    | kept => String c kept
    end
  | EmptyString => s
  end.

(** [Trim s cutset] for a cutset of ASCII bytes, where Go trims byte by
    byte: the trailing bytes of the cutset go first, then the leading
    ones. *)
Definition Trim (s cutset : string) : string :=
  TrimLeft (TrimRight s cutset) cutset.

Definition isUpper (r : Z) : bool := (0x41 <=? r) && (r <=? 0x5A).

(** The inner loop of [EqualFold]:
    [r := SimpleFold(sr); for r != sr && r < tr { r = SimpleFold(r) }]
    entered after the first [SimpleFold].  The orbits of
    [unicode.SimpleFold] have at most three runes. *)
Fixpoint foldLoop (fuel : nat) (sr tr r : Z) : Z :=
  match fuel with
  | O => r
  | S fuel' =>
    if negb (r =? sr) && (r <? tr)
    then foldLoop fuel' sr tr (unicode.SimpleFold r)
    else r
  end.

(** The part of [EqualFold] after the label [hasUnicode]: [rs] are the
    runes of what is left of [s], [t] is what is left of [t]. *)
Fixpoint equalFoldUnicode (rs : list Z) (t : string) : bool :=
  match rs with
  | [] => (String.length t =? 0)%nat
  | sr :: rs' =>
    match t with
    | EmptyString => false
    | String t0 _ =>
      let '(tr, size) :=
        if utf8.byte t0 <? utf8.RuneSelf then (utf8.byte t0, 1%nat)
        else utf8.DecodeRuneInString t in
      let t' := utf8.skip size t in
      if tr =? sr then equalFoldUnicode rs' t'
      else
        let '(sr, tr) := if tr <? sr then (tr, sr) else (sr, tr) in
        if tr <? utf8.RuneSelf then
          if isUpper sr && (tr =? sr + 0x61 - 0x41)
          then equalFoldUnicode rs' t' else false
        else
          let r := foldLoop 4 sr tr (unicode.SimpleFold sr) in
          if r =? tr then equalFoldUnicode rs' t' else false
    end
  end.

(** [EqualFold s t]: equality under simple Unicode case folding.  The
    result is Go's whenever one of the two strings is ASCII (here the
    second one always is), see [unicode.SimpleFold]. *)
Fixpoint EqualFold (s t : string) : bool :=
  match s, t with
  | String s0 s', String t0 t' =>
    let sr := utf8.byte s0 in
    let tr := utf8.byte t0 in
    if utf8.RuneSelf <=? Z.lor sr tr then equalFoldUnicode (utf8.runes s) t
    else if tr =? sr then EqualFold s' t'
    else
      let '(sr, tr) := if tr <? sr then (tr, sr) else (sr, tr) in
      if isUpper sr && (tr =? sr + 0x61 - 0x41) then EqualFold s' t' else false
  | _, _ => (String.length s =? String.length t)%nat
  end.

End strings.

(** Package [fmt]. *)
Module fmt.

(** [Sprintf] for the two verbs the program uses, [%s] and [%v], applied to
    operands already turned into text (a string as it is, an [error] by its
    message, a [Stringer] by [String()]).  Any other byte of the format is
    copied. *)
Fixpoint Sprintf (format : string) (args : list string) : string :=
  match format with
  | EmptyString => EmptyString
  | String c rest =>
    match rest with
    | String v rest' =>
      if Ascii.eqb c "%" && (Ascii.eqb v "s" || Ascii.eqb v "v") then
        match args with
        | a :: args' => a +:+ Sprintf rest' args'
        | [] => "%!" +:+ String v "(MISSING)" +:+ Sprintf rest' []
        end
      else String c (Sprintf rest args)
    | EmptyString => String c EmptyString
    end
  end.

Definition newline : string := String (ascii_of_nat 10) EmptyString.

End fmt.

(* ===================================================================== *)
(** * The Kubernetes client libraries                                     *)
(* ===================================================================== *)

(** What a library call gives back: Go's [(value, nil)] or [(_, err)]. *)
Inductive answer (A : Type) : Type :=
| Ok (a : A)
| Err (err : error).
Arguments Ok {A} a.
Arguments Err {A} err.

(** Package [k8s.io/apimachinery/pkg/runtime/schema]. *)
Module schema.

Module GroupKind.
Record t := { Group : string; Kind : string }.
End GroupKind.

Module GroupVersionKind.
Record t := { Group : string; Version : string; Kind : string }.

Definition GroupKind (gvk : t) : GroupKind.t :=
  {| GroupKind.Group := Group gvk; GroupKind.Kind := Kind gvk |}.
End GroupVersionKind.

Module GroupVersionResource.
Record t := { Group : string; Version : string; Resource : string }.

Definition String (gvr : t) : string :=
  Group gvr +:+ "/" +:+ Version gvr +:+ ", Resource=" +:+ Resource gvr.
End GroupVersionResource.

End schema.

(** Package [k8s.io/apimachinery/pkg/api/meta]. *)
Module meta.
Module RESTMapping.
Record t := {
  Resource : schema.GroupVersionResource.t;
  GroupVersionKind : schema.GroupVersionKind.t
}.
End RESTMapping.
End meta.

(** Package [k8s.io/apimachinery/pkg/version]. *)
Module version.
Module Info.
Record t := { Major : string; Minor : string; GitVersion : string }.
End Info.
End version.

(** Package [k8s.io/apimachinery/pkg/apis/meta/v1/unstructured]. *)
Module unstructured.

(** The values of a decoded JSON document, Go's [interface{}] inside an
    [Unstructured]. *)
Inductive value : Type :=
| VNil
| VBool (b : bool)
| VInt (n : Z)
| VString (s : string)
| VSlice (l : list value)
| VMap (m : gmap string value).

Module Unstructured.
Record t := { Object : gmap string value }.

(** [GetNamespace] is [getNestedString(u.Object, "metadata", "namespace")]:
    the empty string when a field on the path is absent or the value is
    not a string. *)
Definition GetNamespace (u : t) : string :=
  match Object u !! "metadata" with
  | Some (VMap metadata) =>
    match metadata !! "namespace" with
    | Some (VString s) => s
    | _ => ""
    end
  | _ => ""
  end.
End Unstructured.

Module UnstructuredList.
Record t := { Object : gmap string value; Items : list Unstructured.t }.
End UnstructuredList.

End unstructured.

(** Package [k8s.io/client-go/rest]. *)
Module rest.

Inductive WarningHandler := DefaultWarnings | NoWarnings.

Module Config.
Record t := {
  Host : string;
  BearerToken : string;
  WarningHandler : rest.WarningHandler
}.

Definition setWarningHandler (h : rest.WarningHandler) (c : t) : t :=
  {| Host := Host c; BearerToken := BearerToken c; WarningHandler := h |}.
End Config.

End rest.

(** Package [k8s.io/client-go/discovery].  A discovery client is known by
    the answers of the cluster behind it: the server version, and what a
    REST mapper fed from its discovery data resolves a kind to. *)
Module discovery.
Module DiscoveryInterface.
Record t := {
  ServerVersion : answer version.Info.t;
  Mapping : schema.GroupKind.t -> string -> answer meta.RESTMapping.t
}.
End DiscoveryInterface.
End discovery.

(** Packages [k8s.io/client-go/discovery/cached/memory] and
    [k8s.io/client-go/restmapper]: the caching client answers as the client
    it wraps, and the deferred mapper resolves from the discovery data of
    its client. *)
Module memory.
Definition NewMemCacheClient (delegate : discovery.DiscoveryInterface.t)
  : discovery.DiscoveryInterface.t := delegate.
End memory.

Module restmapper.
Module DeferredDiscoveryRESTMapper.
Record t := { cl : discovery.DiscoveryInterface.t }.

Definition RESTMapping (mapper : t) (gk : schema.GroupKind.t) (version : string)
  : answer meta.RESTMapping.t :=
  discovery.DiscoveryInterface.Mapping (cl mapper) gk version.
End DeferredDiscoveryRESTMapper.

Definition NewDeferredDiscoveryRESTMapper (cl : discovery.DiscoveryInterface.t)
  : DeferredDiscoveryRESTMapper.t :=
  {| DeferredDiscoveryRESTMapper.cl := cl |}.
End restmapper.

(** Package [k8s.io/client-go/dynamic]: [Resource(r).List(ctx, opts)] with
    empty options. *)
Module dynamic.
Module Interface.
Record t := {
  List : schema.GroupVersionResource.t -> answer unstructured.UnstructuredList.t
}.
End Interface.
End dynamic.

(** Package [k8s.io/client-go/tools/clientcmd], with its [api]. *)
Module clientcmd.

Module Config.
Record t := { CurrentContext : string; Contexts : list string }.
End Config.

Module PathOptions.
Record t := { GlobalFile : string }.
End PathOptions.

Module ConfigOverrides.
Record t := { CurrentContext : string }.
End ConfigOverrides.

End clientcmd.

(** Package [os/user]. *)
Module user.
Module User.
Record t := { Username : string; HomeDir : string }.
End User.
End user.

(* ===================================================================== *)
(** * Effects: the trace of calls, and panics                             *)
(* ===================================================================== *)

(** What the program does to the world, in the order it does it. *)
Inductive event : Type :=
| os_Getenv (key : string)
| user_Current
| flag_String (name value usage : string)
| clientcmd_BuildConfigFromFlags (masterUrl kubeconfigPath : string)
| clientcmd_GetStartingConfig (o : clientcmd.PathOptions.t)
| clientcmd_ClientConfig (config : clientcmd.Config.t) (overrides : clientcmd.ConfigOverrides.t)
| rest_InClusterConfig
| discovery_NewDiscoveryClientForConfig (c : rest.Config.t)
| dynamic_NewForConfig (c : rest.Config.t)
| disco_ServerVersion
| mapper_RESTMapping (gk : schema.GroupKind.t) (version : string)
| clientset_List (resource : schema.GroupVersionResource.t)
| stdout (text : string)
| stderr (text : string).

(** How a call ends: it returns, or it panics with a value (shown as text). *)
Inductive result (A : Type) : Type :=
| Returned (a : A)
| Panicked (v : string).
Arguments Returned {A} a.
Arguments Panicked {A} v.

(** A Go computation: from the trace so far to its result and the trace
    extended by what it did. *)
Definition Go (A : Type) : Type := list event -> result A * list event.

Definition ret {A} (a : A) : Go A := fun tr => (Returned a, tr).

Definition bind {A B} (m : Go A) (k : A -> Go B) : Go B :=
  fun tr =>
    match m tr with
    | (Returned a, tr') => k a tr'
    | (Panicked v, tr') => (Panicked v, tr')
    end.

Definition panic {A} (v : string) : Go A := fun tr => (Panicked v, tr).

Definition emit (e : event) : Go unit := fun tr => (Returned tt, tr ++ [e]).

Definition history : Go (list event) := fun tr => (Returned tr, tr).

Declare Scope go_scope.
Delimit Scope go_scope with go.
Notation "x <- m ;; k" := (bind m (fun x => k))
  (at level 100, m at next level, right associativity) : go_scope.
Notation "'do' m ;; k" := (bind m (fun _ => k))
  (at level 100, m at next level, right associativity) : go_scope.
#[local] Open Scope go_scope.

(** [call e a]: perform the call [e], which the world answers with [a]. *)
Definition call {A} (e : event) (a : A) : Go A := do emit e ;; ret a.

(** [for _, x := range xs { body }], the loop's variables threaded as [s];
    a [continue] is a [ret] of the variables as they are. *)
Fixpoint range {A S} (xs : list A) (body : S -> A -> Go S) (s : S) : Go S :=
  match xs with
  | [] => ret s
  | x :: xs' => s' <- body s x ;; range xs' body s'
  end.

(** [p.f] for a pointer [p]: a nil pointer dereference panics. *)
Definition field {T A} (f : T -> A) (p : option T) : Go A :=
  match p with
  | Some v => ret (f v)
  | None => panic "runtime error: invalid memory address or nil pointer dereference"
  end.

Definition fmt_Printf (format : string) (args : list string) : Go unit :=
  emit (stdout (fmt.Sprintf format args)).

Definition fmt_Println (line : string) : Go unit :=
  emit (stdout (line +:+ fmt.newline)).


(* ===================================================================== *)
(** * [pkg/Cluster.go]                                                    *)
(* ===================================================================== *)

(** The process around the program: its environment ([os.Getenv]), its name
    ([os.Args[0]], which the flag set is called by), the current user
    ([user.Current]), the path syntax of the system ([filepath.Join]), the
    kubeconfig files ([RecommendedHomeFile] is the default one) and the
    answers of the client libraries' constructors.  The command-line flag
    set is kept in the trace: a flag is defined once a [flag_String] event
    names it. *)
Record Host := {
  Getenv : string -> string;
  Args0 : string;
  Current : answer user.User.t;
  Join : list string -> string;
  BuildConfigFromFlags : string -> string -> answer rest.Config.t;
  InClusterConfig : answer rest.Config.t;
  RecommendedHomeFile : string;
  GetStartingConfig : clientcmd.PathOptions.t -> answer clientcmd.Config.t;
  ClientConfig : clientcmd.Config.t -> clientcmd.ConfigOverrides.t -> answer rest.Config.t;
  NewDiscoveryClientForConfig : rest.Config.t -> answer discovery.DiscoveryInterface.t;
  NewForConfig : rest.Config.t -> answer dynamic.Interface.t
}.

(** [type Cluster struct]. *)
Record Cluster := {
  resources : list schema.GroupVersionResource.t;
  disco : discovery.DiscoveryInterface.t;
  restConfig : option rest.Config.t;
  kubernetesVersion : string;
  clientset : dynamic.Interface.t;
  Name : string;
  Version : string
}.

(** Modelled from the spec: the declaration of [Config] is not in
    [Cluster.go].  The fetcher reads four of its fields, each a list of
    names: the kind allow-list and deny-list, the namespace allow-list and
    deny-list. *)
Record Config := {
  SelectKinds : list string;
  IgnoreKinds : list string;
  SelectNamespaces : list string;
  IgnoreNamespaces : list string
}.

(** Modelled from the spec: the helper [Contains(name, list)] is not in
    [Cluster.go] either.  The spec reads it as "the name appears in the
    list"; the fetcher below takes the helper as a parameter, and this
    reading is the one the examples run with. *)
Definition ContainsName (name : string) (names : list string) : bool :=
  existsb (String.eqb name) names.

Definition isFlag (name : string) (e : event) : bool :=
  match e with
  | flag_String n _ _ => String.eqb n name
  | _ => false
  end.

(** [flag.String(name, value, usage)] on the process's flag set: defining a
    flag a second time prints the complaint to the standard error and panics
    with it.  The flags are never parsed ([flag.Parse] is
    commented out), so the pointer it returns holds the default [value]. *)
Definition flag_String_var (h : Host) (name value usage : string) : Go string :=
  tr <- history ;;
  if existsb (isFlag name) tr then
    let msg :=
      if (String.length (Args0 h) =? 0)%nat
      then fmt.Sprintf "flag redefined: %s" [name]
      else fmt.Sprintf "%s flag redefined: %s" [Args0 h; name] in
    do emit (stderr (msg +:+ fmt.newline)) ;;
    panic msg
  else
    do emit (flag_String name value usage) ;;
    ret value.

(** A library result [(p, err)] whose value is a pointer: nil beside an
    error. *)
Definition pointer {A} (r : answer A) : option A * option error :=
  match r with
  | Ok a => (Some a, None)
  | Err err => (None, Some err)
  end.

(** [func NewCluster(kubeconfig string, kubecontext string) *Cluster].  The
    warning handler is stored through [cluster.restConfig] before the error
    of [ClientConfig] is looked at. *)
Definition NewCluster (h : Host) (kubeconfig kubecontext : string) : Go Cluster :=
  let pathOptions := {| clientcmd.PathOptions.GlobalFile := RecommendedHomeFile h |} in
  let pathOptions :=
    if negb (String.length kubeconfig =? 0)%nat
    then {| clientcmd.PathOptions.GlobalFile := kubeconfig |}
    else pathOptions in
  r <- call (clientcmd_GetStartingConfig pathOptions) (GetStartingConfig h pathOptions) ;;
  match r with
  | Err err => panic err
  | Ok config =>
    let configOverrides := {| clientcmd.ConfigOverrides.CurrentContext := "" |} in
    let configOverrides :=
      if negb (String.eqb kubecontext "")
      then {| clientcmd.ConfigOverrides.CurrentContext := kubecontext |}
      else configOverrides in
    r <- call (clientcmd_ClientConfig config configOverrides)
              (ClientConfig h config configOverrides) ;;
    let '(restConfig, err) := pointer r in
    quiet <- field (rest.Config.setWarningHandler rest.NoWarnings) restConfig ;;
    match err with
    | Some err => panic err
    | None =>
      r <- call (discovery_NewDiscoveryClientForConfig quiet)
                (NewDiscoveryClientForConfig h quiet) ;;
      match r with
      | Err err => panic err
      | Ok d =>
        r <- call (dynamic_NewForConfig quiet) (NewForConfig h quiet) ;;
        match r with
        | Err err => panic err
        | Ok cs =>
          ret {| resources := []; disco := d; restConfig := Some quiet;
                 kubernetesVersion := ""; clientset := cs; Name := ""; Version := "" |}
        end
      end
    end
  end.

(** [func NewClusterFromEnvOrConfig(restConfig *rest.Config) *Cluster].
    The warning handler is set on the configuration the strategy yields (for
    the one passed in, on the caller's object); the handle holds the
    result. *)
Definition NewClusterFromEnvOrConfig (h : Host) (restConfig : option rest.Config.t)
  : Go Cluster :=
  useLocalDevMode <- call (os_Getenv "USE_LOCAL_DEV_MODE") (Getenv h "USE_LOCAL_DEV_MODE") ;;
  defaultRestConfig <-
    (if String.eqb useLocalDevMode "true" then
       r <- call user_Current (Current h) ;;
       match r with
       | Err err => panic err
       | Ok usr =>
         kubeconfig <- flag_String_var h "kubeconfig"
                         (Join h [user.User.HomeDir usr; ".kube"; "config"])
                         "(optional) absolute path to the kubeconfig file" ;;
         r <- call (clientcmd_BuildConfigFromFlags "" kubeconfig)
                   (BuildConfigFromFlags h "" kubeconfig) ;;
         match r with
         | Err err => panic err
         | Ok config => ret config
         end
       end
     else
       match restConfig with
       | Some config => ret config
       | None =>
         r <- call rest_InClusterConfig (InClusterConfig h) ;;
         match r with
         | Err err =>
           do fmt_Println "error in getting rest config via InClusterConfig" ;;
           panic err
         | Ok config => ret config
         end
       end) ;;
  let config := rest.Config.setWarningHandler rest.NoWarnings defaultRestConfig in
  r <- call (discovery_NewDiscoveryClientForConfig config)
            (NewDiscoveryClientForConfig h config) ;;
  match r with
  | Err err => panic err
  | Ok d =>
    r <- call (dynamic_NewForConfig config) (NewForConfig h config) ;;
    match r with
    | Err err => panic err
    | Ok cs =>
      ret {| resources := []; disco := d; restConfig := Some config;
             kubernetesVersion := ""; clientset := cs; Name := ""; Version := "" |}
    end
  end.

(** [func (c *Cluster) ServerVersion() (string, error)]; [None] is a nil
    error. *)
Definition ServerVersion (c : Cluster) : Go (string * option error) :=
  r <- call disco_ServerVersion (discovery.DiscoveryInterface.ServerVersion (disco c)) ;;
  match r with
  | Err err => ret ("", Some err)
  | Ok info =>
    ret (fmt.Sprintf "%s.%s"
           [version.Info.Major info; strings.Trim (version.Info.Minor info) "+"],
         None)
  end.

(** The condition of the [continue] at the head of the second loop. *)
Definition notListable (resource : schema.GroupVersionResource.t) : bool :=
  strings.Contains (schema.GroupVersionResource.Resource resource) "lists"
  || strings.Contains (schema.GroupVersionResource.Resource resource) "reviews"
  || strings.EqualFold (schema.GroupVersionResource.Resource resource) "bindings".

Section Fetcher.

(** [pkg.Contains], declared outside [Cluster.go]. *)
Variable Contains : string -> list string -> bool.

(** The body of [for _, gvk := range gvks]: the resources collected so far,
    and one kind reference. *)
Definition collectResource (mapper : restmapper.DeferredDiscoveryRESTMapper.t)
    (conf : option Config)
    (resources : list schema.GroupVersionResource.t) (gvk : schema.GroupVersionKind.t)
  : Go (list schema.GroupVersionResource.t) :=
  ignoreKinds <- field IgnoreKinds conf ;;
  if Contains (schema.GroupVersionKind.Kind gvk) ignoreKinds then ret resources
  else
    selectKinds <- field SelectKinds conf ;;
    if (0 <? List.length selectKinds)%nat
       && negb (Contains (schema.GroupVersionKind.Kind gvk) selectKinds)
    then ret resources
    else
      r <- call (mapper_RESTMapping (schema.GroupVersionKind.GroupKind gvk)
                                    (schema.GroupVersionKind.Version gvk))
                (restmapper.DeferredDiscoveryRESTMapper.RESTMapping mapper
                   (schema.GroupVersionKind.GroupKind gvk)
                   (schema.GroupVersionKind.Version gvk)) ;;
      match r with
      | Err err => ret resources
      | Ok gvr => ret (resources ++ [meta.RESTMapping.Resource gvr])
      end.

(** The body of [for _, obj := range objList.Items].  The namespace is
    defaulted in the local variable; [obj] is appended as the loop got it. *)
Definition collectObject (conf : option Config)
    (objs : list unstructured.Unstructured.t) (obj : unstructured.Unstructured.t)
  : Go (list unstructured.Unstructured.t) :=
  let namespace := unstructured.Unstructured.GetNamespace obj in
  let namespace :=
    if (String.length (unstructured.Unstructured.GetNamespace obj) =? 0)%nat
    then "default" else namespace in
  ignoreNamespaces <- field IgnoreNamespaces conf ;;
  if Contains namespace ignoreNamespaces then ret objs
  else
    selectNamespaces <- field SelectNamespaces conf ;;
    if (0 <? List.length selectNamespaces)%nat && negb (Contains namespace selectNamespaces)
    then ret objs
    else ret (objs ++ [obj]).

(** The body of [for _, resource := range resources]. *)
Definition listResource (c : Cluster) (conf : option Config)
    (objs : list unstructured.Unstructured.t) (resource : schema.GroupVersionResource.t)
  : Go (list unstructured.Unstructured.t) :=
  if notListable resource then ret objs
  else
    r <- call (clientset_List resource) (dynamic.Interface.List (clientset c) resource) ;;
    match r with
    | Err err =>
      do fmt_Printf ("err while fetching resource %v error %v" +:+ fmt.newline)
                    [schema.GroupVersionResource.String resource; err] ;;
      ret objs
    | Ok objList =>
      range (unstructured.UnstructuredList.Items objList) (collectObject conf) objs
    end.

(** [func (c *Cluster) FetchK8sObjects(gvks []schema.GroupVersionKind,
    conf *Config) []unstructured.Unstructured]. *)
Definition FetchK8sObjects (c : Cluster) (gvks : list schema.GroupVersionKind.t)
    (conf : option Config) : Go (list unstructured.Unstructured.t) :=
  let mapper :=
    restmapper.NewDeferredDiscoveryRESTMapper (memory.NewMemCacheClient (disco c)) in
  resources <- range gvks (collectResource mapper conf) [] ;;
  objs <- range resources (listResource c conf) [] ;;
  ret objs.

End Fetcher.

(* ===================================================================== *)
(** * The fetcher read as a function of the cluster                       *)
(* ===================================================================== *)

(** The namespace the filters look at: ["default"] for an object that has
    none. *)
Definition effectiveNamespace (obj : unstructured.Unstructured.t) : string :=
  match unstructured.Unstructured.GetNamespace obj with
  | EmptyString => "default"
  | ns => ns
  end.

Definition answerOf (c : Cluster) (gvk : schema.GroupVersionKind.t)
  : answer meta.RESTMapping.t :=
  discovery.DiscoveryInterface.Mapping (disco c)
    (schema.GroupVersionKind.GroupKind gvk) (schema.GroupVersionKind.Version gvk).

(** Where an object of the result can come from: the kind reference [gvk]
    of the input resolves to a resource that the fetcher lists, and the
    cluster's answer to the list call holds [obj]. *)
Definition originates (c : Cluster) (gvks : list schema.GroupVersionKind.t)
    (gvk : schema.GroupVersionKind.t) (obj : unstructured.Unstructured.t) : Prop :=
  exists m l,
    In gvk gvks
    /\ answerOf c gvk = Ok m
    /\ notListable (meta.RESTMapping.Resource m) = false
    /\ dynamic.Interface.List (clientset c) (meta.RESTMapping.Resource m) = Ok l
    /\ In obj (unstructured.UnstructuredList.Items l).

Section Reading.

Variable Contains : string -> list string -> bool.

(** A name passes a pair of lists when the deny-list does not hold it and
    the allow-list is empty or holds it. *)
Definition passes (name : string) (allow deny : list string) : bool :=
  negb (Contains name deny)
  && (match allow with [] => true | _ :: _ => Contains name allow end).

Definition kindPasses (conf : Config) (gvk : schema.GroupVersionKind.t) : bool :=
  passes (schema.GroupVersionKind.Kind gvk) (SelectKinds conf) (IgnoreKinds conf).

Definition namespacePasses (conf : Config) (obj : unstructured.Unstructured.t) : bool :=
  passes (effectiveNamespace obj) (SelectNamespaces conf) (IgnoreNamespaces conf).

(** Steps 1 and 2: the resource one kind reference resolves to, if any. *)
Definition resolve (c : Cluster) (conf : Config) (gvk : schema.GroupVersionKind.t)
  : list schema.GroupVersionResource.t :=
  if kindPasses conf gvk then
    match answerOf c gvk with
    | Ok m => [meta.RESTMapping.Resource m]
    | Err _ => []
    end
  else [].

Definition resolveCalls (conf : Config) (gvk : schema.GroupVersionKind.t) : list event :=
  if kindPasses conf gvk then
    [mapper_RESTMapping (schema.GroupVersionKind.GroupKind gvk)
                        (schema.GroupVersionKind.Version gvk)]
  else [].

(** Steps 3 to 5: the objects one resource adds to the result. *)
Definition listing (c : Cluster) (conf : Config) (r : schema.GroupVersionResource.t)
  : list unstructured.Unstructured.t :=
  if notListable r then []
  else
    match dynamic.Interface.List (clientset c) r with
    | Ok l => List.filter (namespacePasses conf) (unstructured.UnstructuredList.Items l)
    | Err _ => []
    end.

Definition listingCalls (c : Cluster) (r : schema.GroupVersionResource.t) : list event :=
  if notListable r then []
  else
    match dynamic.Interface.List (clientset c) r with
    | Ok _ => [clientset_List r]
    | Err err =>
      [clientset_List r;
       stdout ("err while fetching resource " +:+ schema.GroupVersionResource.String r
               +:+ " error " +:+ err +:+ fmt.newline)]
    end.

Definition fetched (c : Cluster) (conf : Config) (gvks : list schema.GroupVersionKind.t)
  : list unstructured.Unstructured.t :=
  List.flat_map (listing c conf) (List.flat_map (resolve c conf) gvks).

Definition fetchCalls (c : Cluster) (conf : Config) (gvks : list schema.GroupVersionKind.t)
  : list event :=
  List.flat_map (resolveCalls conf) gvks
  ++ List.flat_map (listingCalls c) (List.flat_map (resolve c conf) gvks).

(** Everything the list calls of a run answer, in the order of the calls. *)
Definition rawListing (c : Cluster) (conf : Config) (gvks : list schema.GroupVersionKind.t)
  : list unstructured.Unstructured.t :=
  List.flat_map
    (fun r =>
       if notListable r then []
       else match dynamic.Interface.List (clientset c) r with
            | Ok l => unstructured.UnstructuredList.Items l
            | Err _ => []
            end)
    (List.flat_map (resolve c conf) gvks).

End Reading.

(* ===================================================================== *)
(** * Vocabulary of the version query and of the constructor              *)
(* ===================================================================== *)

(** A run of [n] plus signs. *)
Fixpoint pluses (n : nat) : string :=
  match n with
  | O => EmptyString
  | S n' => String "+" (pluses n')
  end.

(** The three ways [NewClusterFromEnvOrConfig] can come by a connection
    configuration. *)
Inductive strategy : Type := LocalDev | Injected | InCluster.

(** The order the strategies are considered in: the local-dev flag of the
    environment, then the configuration passed in, then the in-cluster
    one. *)
Definition selected (h : Host) (restConfig : option rest.Config.t) : strategy :=
  if String.eqb (Getenv h "USE_LOCAL_DEV_MODE") "true" then LocalDev
  else match restConfig with
       | Some _ => Injected
       | None => InCluster
       end.

(** The strategy a call belongs to.  Taking the configuration passed in
    calls nothing. *)
Definition strategyOf (e : event) : option strategy :=
  match e with
  | user_Current | flag_String _ _ _ | clientcmd_BuildConfigFromFlags _ _ => Some LocalDev
  | rest_InClusterConfig => Some InCluster
  | _ => None
  end.

(** What it takes for a strategy to yield the configuration [config], in
    a process whose trace so far is [tr]: for the local-dev one, the current
    user is known, the flag [kubeconfig] is not defined yet, and the file
    [<home>/.kube/config] yields [config]. *)
Definition succeeds (h : Host) (tr : list event) (restConfig : option rest.Config.t)
    (s : strategy) (config : rest.Config.t) : Prop :=
  match s with
  | LocalDev =>
    exists usr,
      Current h = Ok usr
      /\ existsb (isFlag "kubeconfig") tr = false
      /\ BuildConfigFromFlags h "" (Join h [user.User.HomeDir usr; ".kube"; "config"])
         = Ok config
  | Injected => restConfig = Some config
  | InCluster => InClusterConfig h = Ok config
  end.

(** A handle built in full on [config]. *)
Definition builtOn (h : Host) (config : rest.Config.t) (c : Cluster) : Prop :=
  let quiet := rest.Config.setWarningHandler rest.NoWarnings config in
  restConfig c = Some quiet
  /\ NewDiscoveryClientForConfig h quiet = Ok (disco c)
  /\ NewForConfig h quiet = Ok (clientset c).

(** The path options and the overrides [NewCluster] works with: the
    default kubeconfig unless a path is given, the current context of the
    kubeconfig unless a context is given. *)
Definition pathOptionsOf (h : Host) (kubeconfig : string) : clientcmd.PathOptions.t :=
  {| clientcmd.PathOptions.GlobalFile :=
       if (String.length kubeconfig =? 0)%nat then RecommendedHomeFile h else kubeconfig |}.

Definition overridesOf (kubecontext : string) : clientcmd.ConfigOverrides.t :=
  {| clientcmd.ConfigOverrides.CurrentContext := kubecontext |}.

(** The panic of a nil pointer dereference. *)
Definition nilDereference : string :=
  "runtime error: invalid memory address or nil pointer dereference".

(** The complaint of the flag set about a second [kubeconfig] flag. *)
Definition kubeconfigRedefined (h : Host) : string :=
  if (String.length (Args0 h) =? 0)%nat
  then "flag redefined: kubeconfig"
  else Args0 h +:+ " flag redefined: kubeconfig".

(** A handle as the constructors leave it: warnings silenced, and nothing
    set beside the configuration and the two clients. *)
Definition bare (c : Cluster) : Prop :=
  resources c = []
  /\ kubernetesVersion c = ""
  /\ Name c = ""
  /\ Version c = ""
  /\ exists config,
       restConfig c = Some config
       /\ rest.Config.WarningHandler config = rest.NoWarnings.

(** The kinds of event a fetch can leave in the trace. *)
Definition isMapping (e : event) : bool :=
  match e with mapper_RESTMapping _ _ => true | _ => false end.

Definition isListCall (e : event) : bool :=
  match e with clientset_List _ => true | _ => false end.

Definition isListing (e : event) : bool :=
  match e with clientset_List _ | stdout _ => true | _ => false end.

(** The line printed for a list call that failed. *)
Definition diagnostic (r : schema.GroupVersionResource.t) (err : error) : string :=
  "err while fetching resource " +:+ schema.GroupVersionResource.String r
  +:+ " error " +:+ err +:+ fmt.newline.

(** Text of ASCII bytes only, as the names of Kubernetes resources are. *)
Fixpoint isASCII (s : string) : bool :=
  match s with
  | EmptyString => true
  | String c s' => (utf8.byte c <? utf8.RuneSelf) && isASCII s'
  end.

(** What the ASCII path of [strings.EqualFold] asks of one byte of each
    string: the same byte, or a capital letter and its small one. *)
Definition asciiFold (a b : ascii) : bool :=
  let sr := utf8.byte a in
  let tr := utf8.byte b in
  (tr =? sr)
  || (let '(sr, tr) := if tr <? sr then (tr, sr) else (sr, tr) in
      strings.isUpper sr && (tr =? sr + 0x61 - 0x41)).

(* ===================================================================== *)
(** * A small cluster to run the program on                               *)
(* ===================================================================== *)

Module demo.

(** An object of the given kind and name; [namespace = None] leaves the
    [metadata.namespace] field out, as a cluster-scoped object has it. *)
Definition object (kind name : string) (namespace : option string)
  : unstructured.Unstructured.t :=
  let metadata : gmap string unstructured.value :=
    match namespace with
    | Some ns => {[ "name" := unstructured.VString name;
                    "namespace" := unstructured.VString ns ]}
    | None => {[ "name" := unstructured.VString name ]}
    end in
  {| unstructured.Unstructured.Object :=
       {[ "kind" := unstructured.VString kind;
          "metadata" := unstructured.VMap metadata ]} |}.

Definition gvk (group version kind : string) : schema.GroupVersionKind.t :=
  {| schema.GroupVersionKind.Group := group;
     schema.GroupVersionKind.Version := version;
     schema.GroupVersionKind.Kind := kind |}.

Definition gvr (group version resource : string) : schema.GroupVersionResource.t :=
  {| schema.GroupVersionResource.Group := group;
     schema.GroupVersionResource.Version := version;
     schema.GroupVersionResource.Resource := resource |}.

Definition mapping (k : schema.GroupVersionKind.t) (r : schema.GroupVersionResource.t)
  : answer meta.RESTMapping.t :=
  Ok {| meta.RESTMapping.Resource := r; meta.RESTMapping.GroupVersionKind := k |}.

Definition Pod := gvk "" "v1" "Pod".
Definition Secret := gvk "" "v1" "Secret".
Definition Node := gvk "" "v1" "Node".
Definition Binding := gvk "" "v1" "Binding".
Definition Deployment := gvk "apps" "v1" "Deployment".
Definition TokenReview := gvk "authentication.k8s.io" "v1" "TokenReview".
Definition AuditReview := gvk "example.com" "v1" "AuditReview".
Definition Gadget := gvk "example.com" "v1" "Gadget".

Definition pods := gvr "" "v1" "pods".
Definition secrets := gvr "" "v1" "secrets".
Definition nodes := gvr "" "v1" "nodes".
Definition bindings := gvr "" "v1" "bindings".
Definition deployments := gvr "apps" "v1" "deployments".
Definition tokenreviews := gvr "authentication.k8s.io" "v1" "tokenreviews".
Definition auditReviews := gvr "example.com" "v1" "AuditReviews".

Definition web := object "Pod" "web" (Some "prod").
Definition canary := object "Pod" "canary" (Some "staging").
Definition token := object "Secret" "token" (Some "prod").
Definition worker := object "Node" "worker-1" None.
Definition scratch := object "Binding" "scratch" (Some "prod").
Definition review := object "TokenReview" "who" None.
Definition audit := object "AuditReview" "q3" (Some "prod").

(** Kinds the cluster knows; [Gadget] is not one of them. *)
Definition Mapping (gk : schema.GroupKind.t) (version : string)
  : answer meta.RESTMapping.t :=
  let kind := schema.GroupKind.Kind gk in
  if String.eqb kind "Pod" then mapping Pod pods
  else if String.eqb kind "Secret" then mapping Secret secrets
  else if String.eqb kind "Node" then mapping Node nodes
  else if String.eqb kind "Binding" then mapping Binding bindings
  else if String.eqb kind "Deployment" then mapping Deployment deployments
  else if String.eqb kind "TokenReview" then mapping TokenReview tokenreviews
  else if String.eqb kind "AuditReview" then mapping AuditReview auditReviews
  else Err ("no matches for kind " +:+ kind).

Definition items (l : list unstructured.Unstructured.t)
  : answer unstructured.UnstructuredList.t :=
  Ok {| unstructured.UnstructuredList.Object := empty;
        unstructured.UnstructuredList.Items := l |}.

(** Every collection lists, [deployments] apart (the caller may not). *)
Definition List (r : schema.GroupVersionResource.t)
  : answer unstructured.UnstructuredList.t :=
  let name := schema.GroupVersionResource.Resource r in
  if String.eqb name "pods" then items [web; canary]
  else if String.eqb name "secrets" then items [token]
  else if String.eqb name "nodes" then items [worker]
  else if String.eqb name "bindings" then items [scratch]
  else if String.eqb name "tokenreviews" then items [review]
  else if String.eqb name "AuditReviews" then items [audit]
  else if String.eqb name "deployments" then Err "deployments.apps is forbidden"
  else Err "the server could not find the requested resource".

Definition info (major minor : string) : version.Info.t :=
  {| version.Info.Major := major;
     version.Info.Minor := minor;
     version.Info.GitVersion := "v" +:+ major +:+ "." +:+ minor |}.

Definition discoOf (v : answer version.Info.t) : discovery.DiscoveryInterface.t :=
  {| discovery.DiscoveryInterface.ServerVersion := v;
     discovery.DiscoveryInterface.Mapping := Mapping |}.

Definition dyn : dynamic.Interface.t := {| dynamic.Interface.List := List |}.

Definition clusterOf (v : answer version.Info.t) : Cluster :=
  {| resources := []; disco := discoOf v; restConfig := None;
     kubernetesVersion := ""; clientset := dyn; Name := ""; Version := "" |}.

Definition cluster : Cluster := clusterOf (Ok (info "1" "28+")).

(** No filter at all. *)
Definition everything : Config :=
  {| SelectKinds := []; IgnoreKinds := [];
     SelectNamespaces := []; IgnoreNamespaces := [] |}.

Definition denySecrets : Config :=
  {| SelectKinds := []; IgnoreKinds := ["Secret"];
     SelectNamespaces := []; IgnoreNamespaces := [] |}.

Definition onlyPods : Config :=
  {| SelectKinds := ["Pod"]; IgnoreKinds := [];
     SelectNamespaces := []; IgnoreNamespaces := [] |}.

Definition onlyProd : Config :=
  {| SelectKinds := []; IgnoreKinds := [];
     SelectNamespaces := ["prod"]; IgnoreNamespaces := [] |}.

(** [Secret] and [prod] are allowed and denied at once. *)
Definition torn : Config :=
  {| SelectKinds := ["Pod"; "Secret"]; IgnoreKinds := ["Secret"];
     SelectNamespaces := ["prod"; "staging"]; IgnoreNamespaces := ["prod"] |}.

(** The events of resolving a kind and of listing a resource. *)
Definition resolving (k : schema.GroupVersionKind.t) : event :=
  mapper_RESTMapping (schema.GroupVersionKind.GroupKind k) (schema.GroupVersionKind.Version k).

Definition listingOf (r : schema.GroupVersionResource.t) : event := clientset_List r.

(** The same cluster with other answers to the list calls. *)
Definition clusterListing
    (list : schema.GroupVersionResource.t -> answer unstructured.UnstructuredList.t)
  : Cluster :=
  {| resources := []; disco := discoOf (Ok (info "1" "28+")); restConfig := None;
     kubernetesVersion := ""; clientset := {| dynamic.Interface.List := list |};
     Name := ""; Version := "" |}.

(** A cluster whose [tokenreviews] and [bindings] would list more. *)
Definition ListMore (r : schema.GroupVersionResource.t)
  : answer unstructured.UnstructuredList.t :=
  let name := schema.GroupVersionResource.Resource r in
  if String.eqb name "tokenreviews" then items [review; review]
  else if String.eqb name "bindings" then Err "gone"
  else List r.

(** A developer's machine: local-dev mode is on and the kubeconfig in the
    home directory is good.  Of the other kubeconfig paths, [broken] is a
    file that does not parse, and the rest are not there: loading a file
    that is not there gives an empty configuration and no error, and an
    empty configuration yields no client configuration. *)
Definition kubeconfig : rest.Config.t :=
  {| rest.Config.Host := "https://127.0.0.1:6443";
     rest.Config.BearerToken := "";
     rest.Config.WarningHandler := rest.DefaultWarnings |}.

Definition dev : user.User.t :=
  {| user.User.Username := "dev"; user.User.HomeDir := "/home/dev" |}.

Definition laptop : Host :=
  {| Getenv := fun key => if String.eqb key "USE_LOCAL_DEV_MODE" then "true" else "";
     Args0 := "kubedd";
     Current := Ok dev;
     Join := String.concat "/";
     BuildConfigFromFlags := fun _ path =>
       if String.eqb path "/home/dev/.kube/config" then Ok kubeconfig
       else Err ("stat " +:+ path +:+ ": no such file or directory");
     InClusterConfig := Err "unable to load in-cluster configuration";
     RecommendedHomeFile := "/home/dev/.kube/config";
     GetStartingConfig := fun o =>
       if String.eqb (clientcmd.PathOptions.GlobalFile o) "/home/dev/.kube/config"
       then Ok {| clientcmd.Config.CurrentContext := "kind";
                  clientcmd.Config.Contexts := ["kind"] |}
       else if String.eqb (clientcmd.PathOptions.GlobalFile o) "/home/dev/.kube/broken"
       then Err "yaml: line 3: mapping values are not allowed in this context"
       else Ok {| clientcmd.Config.CurrentContext := ""; clientcmd.Config.Contexts := [] |};
     ClientConfig := fun config overrides =>
       let context :=
         if String.eqb (clientcmd.ConfigOverrides.CurrentContext overrides) ""
         then clientcmd.Config.CurrentContext config
         else clientcmd.ConfigOverrides.CurrentContext overrides in
       if (List.length (clientcmd.Config.Contexts config) =? 0)%nat
       then Err "invalid configuration: no configuration has been provided"
       else if ContainsName context (clientcmd.Config.Contexts config) then Ok kubeconfig
       else Err ("context was not found for specified context: " +:+ context);
     NewDiscoveryClientForConfig := fun _ => Ok (discoOf (Ok (info "1" "28+")));
     NewForConfig := fun _ => Ok dyn |}.

(** The handle [NewClusterFromEnvOrConfig] builds there. *)
Definition handle : Cluster :=
  {| resources := []; disco := discoOf (Ok (info "1" "28+"));
     restConfig := Some (rest.Config.setWarningHandler rest.NoWarnings kubeconfig);
     kubernetesVersion := ""; clientset := dyn; Name := ""; Version := "" |}.

(** What the kubeconfig of the developer holds, and the trace a first
    call of [NewClusterFromEnvOrConfig] leaves there. *)
Definition kubeconfigFile : clientcmd.Config.t :=
  {| clientcmd.Config.CurrentContext := "kind"; clientcmd.Config.Contexts := ["kind"] |}.

Definition firstRun : list event :=
  [os_Getenv "USE_LOCAL_DEV_MODE"; user_Current;
   flag_String "kubeconfig" "/home/dev/.kube/config"
     "(optional) absolute path to the kubeconfig file";
   clientcmd_BuildConfigFromFlags "" "/home/dev/.kube/config";
   discovery_NewDiscoveryClientForConfig
     (rest.Config.setWarningHandler rest.NoWarnings kubeconfig);
   dynamic_NewForConfig (rest.Config.setWarningHandler rest.NoWarnings kubeconfig)].

Definition rolebindings := gvr "rbac.authorization.k8s.io" "v1" "rolebindings".

End demo.

(* ===================================================================== *)
(** * Proof steps                                                         *)
(* ===================================================================== *)

(** One step of [append]; stdpp keeps [simpl] from taking it. *)
Ltac append_step :=
  repeat first
    [ progress change (String ?c ?s +:+ ?t) with (String c (s +:+ t)) in *
    | progress change (EmptyString +:+ ?t) with t in * ].

(** Deciding a property of every byte, or of every pair of bytes, by
    running through them. *)
Definition forall_bool (f : bool -> bool) : bool := f true && f false.

Definition forall_ascii (f : ascii -> bool) : bool :=
  forall_bool (fun b0 => forall_bool (fun b1 => forall_bool (fun b2 =>
  forall_bool (fun b3 => forall_bool (fun b4 => forall_bool (fun b5 =>
  forall_bool (fun b6 => forall_bool (fun b7 =>
    f (Ascii b0 b1 b2 b3 b4 b5 b6 b7))))))))).

(** For two ASCII bytes, [strings.EqualFold] stays on its ASCII path, and
    what it asks of them is that [strings.lower] makes them equal. *)
Definition asciiFold_ok (a b : ascii) : bool :=
  implb ((utf8.byte a <? utf8.RuneSelf) && (utf8.byte b <? utf8.RuneSelf))
        (negb (utf8.RuneSelf <=? Z.lor (utf8.byte a) (utf8.byte b))
         && Bool.eqb (asciiFold a b) (Ascii.eqb (strings.lower a) (strings.lower b))).

(* ===================================================================== *)
(** * The library functions on a few inputs                               *)
(* ===================================================================== *)

Example Contains_lists : strings.Contains "podlists" "lists" = true.
Proof. reflexivity. Qed.

Example Contains_is_case_sensitive : strings.Contains "PodLists" "lists" = false.
Proof. reflexivity. Qed.

Example EqualFold_upper : strings.EqualFold "BiNdInGs" "bindings" = true.
Proof. reflexivity. Qed.

Example EqualFold_longer : strings.EqualFold "rolebindings" "bindings" = false.
Proof. reflexivity. Qed.

(** The long s (U+017F, the bytes C5 BF) folds to [s]. *)
Example EqualFold_long_s :
  strings.EqualFold ("binding" +:+ String (ascii_of_nat 197) (String (ascii_of_nat 191) ""))
                    "bindings" = true.
Proof. vm_compute. reflexivity. Qed.

Example Trim_plus : strings.Trim "28+" "+" = "28".
Proof. reflexivity. Qed.

Example Trim_both_ends : strings.Trim "++2+8++" "+" = "2+8".
Proof. reflexivity. Qed.

Example Sprintf_version : fmt.Sprintf "%s.%s" ["1"; "28"] = "1.28".
Proof. reflexivity. Qed.

(* ===================================================================== *)
(** * Lemmas on the effects and the loops                                 *)
(* ===================================================================== *)

Lemma ContainsName_In name names : ContainsName name names = true <-> In name names.
Proof.
  unfold ContainsName. rewrite List.existsb_exists. split.
  - intros [n [Hin Heq]]. apply String.eqb_eq in Heq. now subst n.
  - intros Hin. exists name. split; [assumption | apply String.eqb_refl].
Qed.

Lemma effectiveNamespace_eq obj :
  (if (String.length (unstructured.Unstructured.GetNamespace obj) =? 0)%nat
   then "default" else unstructured.Unstructured.GetNamespace obj)
  = effectiveNamespace obj.
Proof.
  unfold effectiveNamespace.
  destruct (unstructured.Unstructured.GetNamespace obj); reflexivity.
Qed.

Lemma nonempty_length {A} (l : list A) :
  (0 <? List.length l)%nat = match l with [] => false | _ :: _ => true end.
Proof. destruct l; reflexivity. Qed.

(** A loop whose body only ever appends: to the variables it threads, and
    to the trace. *)
Lemma range_appends {A B} (body : list B -> A -> Go (list B))
    (f : A -> list B) (g : A -> list event) :
  (forall s x tr, body s x tr = (Returned (s ++ f x), tr ++ g x)) ->
  forall xs s tr,
    range xs body s tr = (Returned (s ++ List.flat_map f xs), tr ++ List.flat_map g xs).
Proof.
  intros Hbody xs.
  induction xs as [|x xs IH]; intros s tr; simpl.
  - unfold ret. now rewrite !app_nil_r.
  - unfold bind. rewrite Hbody, IH. now rewrite <- !app_assoc.
Qed.

Lemma Sprintf_fetch_error r err :
  fmt.Sprintf ("err while fetching resource %v error %v" +:+ fmt.newline)
              [schema.GroupVersionResource.String r; err]
  = "err while fetching resource " +:+ schema.GroupVersionResource.String r
    +:+ " error " +:+ err +:+ fmt.newline.
Proof. reflexivity. Qed.

Section Runs.

Variable Contains : string -> list string -> bool.

Lemma passes_spec name allow deny :
  passes Contains name allow deny = true <->
  Contains name deny = false /\ (allow = [] \/ Contains name allow = true).
Proof.
  unfold passes. destruct (Contains name deny); simpl.
  - split; [discriminate | intros [? _]; discriminate].
  - destruct allow as [|a allow']; simpl.
    + split; auto.
    + split; [intros ->; auto | intros [_ [?|?]]; [discriminate | assumption]].
Qed.

Lemma collectResource_run c conf rs gvk tr :
  collectResource Contains
    (restmapper.NewDeferredDiscoveryRESTMapper (memory.NewMemCacheClient (disco c)))
    (Some conf) rs gvk tr
  = (Returned (rs ++ resolve Contains c conf gvk), tr ++ resolveCalls Contains conf gvk).
Proof.
  unfold collectResource, resolve, resolveCalls, kindPasses, passes, answerOf,
    restmapper.DeferredDiscoveryRESTMapper.RESTMapping,
    restmapper.NewDeferredDiscoveryRESTMapper, memory.NewMemCacheClient,
    field, call, bind, ret, emit.
  simpl restmapper.DeferredDiscoveryRESTMapper.cl.
  rewrite nonempty_length.
  destruct (Contains _ (IgnoreKinds conf)); simpl.
  - now rewrite !app_nil_r.
  - destruct (SelectKinds conf) as [|k ks]; simpl.
    + destruct (discovery.DiscoveryInterface.Mapping _ _ _); simpl;
        now rewrite ?app_nil_r.
    + destruct (Contains _ (k :: ks)); simpl.
      * destruct (discovery.DiscoveryInterface.Mapping _ _ _); simpl;
          now rewrite ?app_nil_r.
      * now rewrite !app_nil_r.
Qed.

Lemma collectObject_run conf objs obj tr :
  collectObject Contains (Some conf) objs obj tr
  = (Returned (objs ++ if namespacePasses Contains conf obj then [obj] else []), tr ++ []).
Proof.
  unfold collectObject, namespacePasses, passes, field, bind, ret.
  rewrite effectiveNamespace_eq, nonempty_length, app_nil_r.
  destruct (Contains _ (IgnoreNamespaces conf)); simpl.
  - now rewrite app_nil_r.
  - destruct (SelectNamespaces conf) as [|n ns]; simpl; [reflexivity|].
    destruct (Contains _ (n :: ns)); simpl; now rewrite ?app_nil_r.
Qed.

Lemma flat_map_filter {A} (p : A -> bool) (l : list A) :
  List.flat_map (fun x => if p x then [x] else []) l = List.filter p l.
Proof.
  induction l as [|x l IH]; simpl; [reflexivity|].
  rewrite IH. now destruct (p x).
Qed.

Lemma listResource_run c conf objs r tr :
  listResource Contains c (Some conf) objs r tr
  = (Returned (objs ++ listing Contains c conf r), tr ++ listingCalls c r).
Proof.
  unfold listResource, listing, listingCalls.
  destruct (notListable r).
  - unfold ret. now rewrite !app_nil_r.
  - unfold call, bind, emit, ret, fmt_Printf; simpl.
    destruct (dynamic.Interface.List (clientset c) r) as [l|err]; simpl.
    + rewrite (range_appends _ _ (fun _ => []) (collectObject_run conf)).
      rewrite flat_map_filter. f_equal.
      induction (unstructured.UnstructuredList.Items l); simpl; auto using app_nil_r.
    + now rewrite app_nil_r, <- app_assoc.
Qed.

(** The refinement: on a configuration that is there, the two loops compute
    [fetched] and perform [fetchCalls], and return. *)
Lemma FetchK8sObjects_run c gvks conf tr :
  FetchK8sObjects Contains c gvks (Some conf) tr
  = (Returned (fetched Contains c conf gvks), tr ++ fetchCalls Contains c conf gvks).
Proof.
  unfold FetchK8sObjects, fetched, fetchCalls, bind. cbv zeta.
  rewrite (range_appends _ _ _ (fun s x t => collectResource_run c conf s x t)).
  rewrite (range_appends _ _ _ (fun s x t => listResource_run c conf s x t)).
  unfold ret. simpl. now rewrite app_assoc.
Qed.

End Runs.

(* ===================================================================== *)
(** * What ends up in the result                                          *)
(* ===================================================================== *)

Section Membership.

Variable Contains : string -> list string -> bool.

Lemma In_fetched c conf gvks obj :
  In obj (fetched Contains c conf gvks) <->
  exists gvk, originates c gvks gvk obj
              /\ kindPasses Contains conf gvk = true
              /\ namespacePasses Contains conf obj = true.
Proof.
  unfold fetched. rewrite List.in_flat_map. split.
  - intros [r [Hr Hobj]].
    apply List.in_flat_map in Hr as [gvk [Hgvk Hr]].
    unfold resolve in Hr.
    destruct (kindPasses Contains conf gvk) eqn:Hkind; [|contradiction].
    destruct (answerOf c gvk) as [m|] eqn:Hm; [|contradiction].
    destruct Hr as [<-|[]].
    unfold listing in Hobj.
    destruct (notListable (meta.RESTMapping.Resource m)) eqn:Hskip; [contradiction|].
    destruct (dynamic.Interface.List _ _) as [l|] eqn:Hl; [|contradiction].
    apply List.filter_In in Hobj as [Hin Hns].
    exists gvk. repeat split; try assumption.
    exists m, l. auto.
  - intros [gvk [[m [l (Hgvk & Hm & Hskip & Hl & Hin)]] [Hkind Hns]]].
    exists (meta.RESTMapping.Resource m). split.
    + apply List.in_flat_map. exists gvk. split; [assumption|].
      unfold resolve. rewrite Hkind, Hm. now left.
    + unfold listing. rewrite Hskip, Hl. apply List.filter_In. auto.
Qed.

(** A kind reference that resolves to nothing, or to a resource that adds
    nothing, can be left out of the input: the objects are the same. *)
Lemma fetched_without c conf pre gvk post :
  List.flat_map (listing Contains c conf) (resolve Contains c conf gvk) = [] ->
  fetched Contains c conf (pre ++ gvk :: post) = fetched Contains c conf (pre ++ post).
Proof.
  intros Hnone. unfold fetched.
  rewrite !List.flat_map_app. simpl. rewrite List.flat_map_app, Hnone. reflexivity.
Qed.

(** A kind reference the kind filters stop makes no call either. *)
Lemma fetchCalls_without c conf pre gvk post :
  kindPasses Contains conf gvk = false ->
  fetchCalls Contains c conf (pre ++ gvk :: post) = fetchCalls Contains c conf (pre ++ post).
Proof.
  intros Hkind. unfold fetchCalls.
  rewrite !List.flat_map_app. simpl.
  unfold resolveCalls at 2, resolve at 2. rewrite Hkind. reflexivity.
Qed.

Lemma stopped_kind_without c conf pre gvk post tr :
  kindPasses Contains conf gvk = false ->
  FetchK8sObjects Contains c (pre ++ gvk :: post) (Some conf) tr
  = FetchK8sObjects Contains c (pre ++ post) (Some conf) tr.
Proof.
  intros Hkind. rewrite !FetchK8sObjects_run.
  rewrite fetchCalls_without by assumption.
  rewrite fetched_without; [reflexivity|].
  unfold resolve. now rewrite Hkind.
Qed.

Lemma denied_stops name allow deny :
  Contains name deny = true -> passes Contains name allow deny = false.
Proof. intros H. unfold passes. now rewrite H. Qed.

Lemma originates_without c pre gvk post gvk' obj :
  originates c (pre ++ post) gvk' obj -> originates c (pre ++ gvk :: post) gvk' obj.
Proof.
  intros [m [l (Hin & H)]]. exists m, l. split; [|exact H].
  apply List.in_app_iff in Hin. apply List.in_app_iff. simpl. tauto.
Qed.

(** ** The kind deny-list *)

(** C3.  Whatever the kind references and the filter configuration, every
    object of the returned sequence comes from a kind reference whose kind
    name is not in the kind deny-list; and a kind reference whose kind name
    is in the deny-list can be struck from the input without changing the
    objects returned or the calls made: neither the reference nor the
    resource it would resolve to contributes anything. *)
Theorem denied_kind_contributes_nothing c gvks conf tr objs tr' :
  FetchK8sObjects Contains c gvks (Some conf) tr = (Returned objs, tr') ->
  (forall obj, In obj objs ->
     exists gvk, originates c gvks gvk obj
                 /\ Contains (schema.GroupVersionKind.Kind gvk) (IgnoreKinds conf) = false)
  /\ (forall pre gvk post,
        gvks = pre ++ gvk :: post ->
        Contains (schema.GroupVersionKind.Kind gvk) (IgnoreKinds conf) = true ->
        FetchK8sObjects Contains c (pre ++ post) (Some conf) tr = (Returned objs, tr')).
Proof.
  intros Hrun. split.
  - rewrite FetchK8sObjects_run in Hrun. injection Hrun as <- _.
    intros obj Hobj. apply In_fetched in Hobj as [gvk (Horig & Hkind & _)].
    exists gvk. split; [assumption|].
    apply passes_spec in Hkind. tauto.
  - intros pre gvk post -> Hdenied.
    rewrite <- Hrun. symmetry. apply stopped_kind_without.
    now apply denied_stops.
Qed.

(** ** The kind allow-list *)

(** C5.  When the kind allow-list is not empty, every object of the
    returned sequence comes from a kind reference whose kind name is in the
    allow-list.  When it is empty it restricts nothing: every object listed
    for a kind reference that the deny-list lets through is returned, if
    the namespace filters keep it. *)
Theorem allow_list_restricts_kinds c gvks conf tr objs tr' :
  FetchK8sObjects Contains c gvks (Some conf) tr = (Returned objs, tr') ->
  (SelectKinds conf <> [] ->
   forall obj, In obj objs ->
     exists gvk, originates c gvks gvk obj
                 /\ Contains (schema.GroupVersionKind.Kind gvk) (SelectKinds conf) = true)
  /\ (SelectKinds conf = [] ->
      forall gvk obj,
        originates c gvks gvk obj ->
        Contains (schema.GroupVersionKind.Kind gvk) (IgnoreKinds conf) = false ->
        namespacePasses Contains conf obj = true ->
        In obj objs).
Proof.
  intros Hrun. rewrite FetchK8sObjects_run in Hrun. injection Hrun as <- _.
  split.
  - intros Hnonempty obj Hobj.
    apply In_fetched in Hobj as [gvk (Horig & Hkind & _)].
    exists gvk. split; [assumption|].
    apply passes_spec in Hkind. destruct Hkind as [_ [?|?]]; [contradiction | assumption].
  - intros Hempty gvk obj Horig Hdeny Hns.
    apply In_fetched. exists gvk. repeat split; try assumption.
    apply passes_spec. auto.
Qed.

(** ** The namespace filters *)

(** C6.  Take an object listed for a kind reference that passes the kind
    filters, and let its effective namespace be ["default"] when its
    namespace is empty and its own namespace otherwise.  The object is
    missing from the result exactly when the effective namespace is in the
    namespace deny-list, or the namespace allow-list is not empty and does
    not hold the effective namespace. *)
Theorem namespace_filter_exact c gvks conf tr objs tr' gvk obj :
  FetchK8sObjects Contains c gvks (Some conf) tr = (Returned objs, tr') ->
  originates c gvks gvk obj ->
  kindPasses Contains conf gvk = true ->
  (~ In obj objs <->
   Contains (effectiveNamespace obj) (IgnoreNamespaces conf) = true
   \/ (SelectNamespaces conf <> []
       /\ Contains (effectiveNamespace obj) (SelectNamespaces conf) = false)).
Proof.
  intros Hrun Horig Hkind.
  rewrite FetchK8sObjects_run in Hrun. injection Hrun as <- _.
  rewrite In_fetched.
  assert (Hpass := passes_spec Contains (effectiveNamespace obj)
                     (SelectNamespaces conf) (IgnoreNamespaces conf)).
  fold (namespacePasses Contains conf obj) in Hpass.
  destruct (namespacePasses Contains conf obj) eqn:Hns.
  - destruct Hpass as [Hpass _]. destruct (Hpass eq_refl) as [Hdeny Hallow].
    split.
    + intros Hnot. exfalso. apply Hnot. exists gvk. auto.
    + intros [Hin | [Hne Hout]]; [congruence|].
      destruct Hallow; [contradiction | congruence].
  - split.
    + intros _.
      destruct (Contains (effectiveNamespace obj) (IgnoreNamespaces conf)) eqn:Hdeny;
        [now left | right].
      destruct (SelectNamespaces conf) as [|n ns] eqn:Hsel.
      * exfalso. destruct Hpass as [_ Hpass].
        assert (false = true) by (apply Hpass; auto). discriminate.
      * split; [discriminate|].
        destruct (Contains (effectiveNamespace obj) (n :: ns)) eqn:Hallow; [|reflexivity].
        destruct Hpass as [_ Hpass].
        assert (false = true) by (apply Hpass; auto). discriminate.
    + intros _ [gvk' (_ & _ & Hns')]. congruence.
Qed.

End Membership.

Section Survivors.

Variable Contains : string -> list string -> bool.

Lemma fetched_filters_rawListing c conf gvks :
  fetched Contains c conf gvks
  = List.filter (namespacePasses Contains conf) (rawListing Contains c conf gvks).
Proof.
  unfold fetched, rawListing.
  induction (List.flat_map (resolve Contains c conf) gvks) as [|r rs IH]; simpl.
  - reflexivity.
  - rewrite List.filter_app, IH. f_equal.
    unfold listing. destruct (notListable r); [reflexivity|].
    now destruct (dynamic.Interface.List (clientset c) r).
Qed.

Lemma In_rawListing c conf gvks obj :
  In obj (rawListing Contains c conf gvks) <->
  exists gvk, originates c gvks gvk obj /\ kindPasses Contains conf gvk = true.
Proof.
  unfold rawListing. rewrite List.in_flat_map. split.
  - intros [r [Hr Hobj]].
    apply List.in_flat_map in Hr as [gvk [Hgvk Hr]].
    unfold resolve in Hr.
    destruct (kindPasses Contains conf gvk) eqn:Hkind; [|contradiction].
    destruct (answerOf c gvk) as [m|] eqn:Hm; [|contradiction].
    destruct Hr as [<-|[]].
    destruct (notListable (meta.RESTMapping.Resource m)) eqn:Hskip; [contradiction|].
    destruct (dynamic.Interface.List _ _) as [l|] eqn:Hl; [|contradiction].
    exists gvk. split; [|assumption]. exists m, l. auto.
  - intros [gvk [[m [l (Hgvk & Hm & Hskip & Hl & Hin)]] Hkind]].
    exists (meta.RESTMapping.Resource m). split.
    + apply List.in_flat_map. exists gvk. split; [assumption|].
      unfold resolve. rewrite Hkind, Hm. now left.
    + now rewrite Hskip, Hl.
Qed.

Lemma namespacePasses_default conf obj :
  unstructured.Unstructured.GetNamespace obj = "" ->
  namespacePasses Contains conf obj
  = passes Contains "default" (SelectNamespaces conf) (IgnoreNamespaces conf).
Proof.
  intros Hempty. unfold namespacePasses, effectiveNamespace. now rewrite Hempty.
Qed.

(** C9.  The returned sequence is a sub-sequence of what the list calls
    answered: the objects of the raw listing that the namespace filters
    keep, each one as it was listed, none rebuilt or changed.  So an object
    listed with an empty namespace and kept by the filters (which look at
    ["default"] for it) is in the result as listed, its namespace still
    empty. *)
Theorem result_is_raw_listing_filtered c gvks conf tr objs tr' :
  FetchK8sObjects Contains c gvks (Some conf) tr = (Returned objs, tr') ->
  (exists raw,
     objs = List.filter (namespacePasses Contains conf) raw
     /\ forall obj, In obj raw <->
          exists gvk, originates c gvks gvk obj /\ kindPasses Contains conf gvk = true)
  /\ (forall gvk obj,
        originates c gvks gvk obj ->
        kindPasses Contains conf gvk = true ->
        unstructured.Unstructured.GetNamespace obj = "" ->
        passes Contains "default" (SelectNamespaces conf) (IgnoreNamespaces conf) = true ->
        exists entry, In entry objs /\ entry = obj
                      /\ unstructured.Unstructured.GetNamespace entry = "").
Proof.
  intros Hrun. rewrite FetchK8sObjects_run in Hrun. injection Hrun as <- _.
  split.
  - exists (rawListing Contains c conf gvks). split.
    + apply fetched_filters_rawListing.
    + intros obj. apply In_rawListing.
  - intros gvk obj Horig Hkind Hempty Hpass.
    exists obj. repeat split; [|assumption].
    apply In_fetched. exists gvk. repeat split; try assumption.
    now rewrite namespacePasses_default.
Qed.

(** C1, as the code has it.  An object listed with an empty namespace is
    filtered as if its namespace were ["default"]: it is in the result
    exactly when ["default"] is not in the namespace deny-list and the
    namespace allow-list is empty or holds ["default"].  The entry for it is
    the object as listed: it reports the empty namespace. *)
Theorem empty_namespace_filtered_as_default c gvks conf tr objs tr' gvk obj :
  FetchK8sObjects Contains c gvks (Some conf) tr = (Returned objs, tr') ->
  originates c gvks gvk obj ->
  kindPasses Contains conf gvk = true ->
  unstructured.Unstructured.GetNamespace obj = "" ->
  (In obj objs <->
   Contains "default" (IgnoreNamespaces conf) = false
   /\ (SelectNamespaces conf = [] \/ Contains "default" (SelectNamespaces conf) = true))
  /\ (forall entry,
        In entry objs ->
        unstructured.Unstructured.Object entry = unstructured.Unstructured.Object obj ->
        unstructured.Unstructured.GetNamespace entry = "").
Proof.
  intros Hrun Horig Hkind Hempty.
  rewrite FetchK8sObjects_run in Hrun. injection Hrun as <- _.
  split.
  - rewrite <- passes_spec, <- (namespacePasses_default conf obj Hempty), In_fetched.
    split.
    + intros [gvk' (_ & _ & Hns)]. exact Hns.
    + intros Hns. exists gvk. auto.
  - intros [entryObject] _ Hsame. destruct obj as [object]. simpl in Hsame.
    now subst entryObject.
Qed.

(** C10.  In both filters the deny-list wins over the allow-list.  A kind
    reference whose kind name is in the kind deny-list and also in the kind
    allow-list can be struck from the input without changing the result or
    the calls; and no object whose effective namespace is in the namespace
    deny-list and also in the namespace allow-list is in the result. *)
Theorem deny_list_wins c conf :
  (forall pre gvk post tr,
     Contains (schema.GroupVersionKind.Kind gvk) (IgnoreKinds conf) = true ->
     Contains (schema.GroupVersionKind.Kind gvk) (SelectKinds conf) = true ->
     FetchK8sObjects Contains c (pre ++ gvk :: post) (Some conf) tr
     = FetchK8sObjects Contains c (pre ++ post) (Some conf) tr)
  /\ (forall gvks tr objs tr' obj,
        FetchK8sObjects Contains c gvks (Some conf) tr = (Returned objs, tr') ->
        Contains (effectiveNamespace obj) (IgnoreNamespaces conf) = true ->
        Contains (effectiveNamespace obj) (SelectNamespaces conf) = true ->
        ~ In obj objs).
Proof.
  split.
  - intros pre gvk post tr Hdeny _.
    apply stopped_kind_without. now apply denied_stops.
  - intros gvks tr objs tr' obj Hrun Hdeny _ Hin.
    rewrite FetchK8sObjects_run in Hrun. injection Hrun as <- _.
    apply In_fetched in Hin as [gvk (_ & _ & Hns)].
    unfold namespacePasses in Hns.
    rewrite (denied_stops Contains _ _ _ Hdeny) in Hns. discriminate.
Qed.

(** C2.  Whatever the kind references, the configuration and the answers
    of the cluster, the fetch returns (no panic, and the function has no
    error result).  A kind the mapper cannot resolve and a resource whose
    list call fails cost only themselves: every object that is listed for
    a kind reference passing the kind filters and that the namespace
    filters keep is in the result, and the result is the one the same
    input without the failing kind reference gives. *)
Theorem fetch_survives_failures c gvks conf tr :
  exists objs calls,
    FetchK8sObjects Contains c gvks (Some conf) tr = (Returned objs, tr ++ calls)
    /\ (forall gvk obj,
          originates c gvks gvk obj ->
          kindPasses Contains conf gvk = true ->
          namespacePasses Contains conf obj = true ->
          In obj objs)
    /\ (forall pre gvk post,
          gvks = pre ++ gvk :: post ->
          (exists err, answerOf c gvk = Err err)
          \/ (exists m err,
                answerOf c gvk = Ok m
                /\ dynamic.Interface.List (clientset c) (meta.RESTMapping.Resource m)
                   = Err err) ->
          fst (FetchK8sObjects Contains c (pre ++ post) (Some conf) tr) = Returned objs).
Proof.
  exists (fetched Contains c conf gvks), (fetchCalls Contains c conf gvks).
  split; [apply FetchK8sObjects_run|]. split.
  - intros gvk obj Horig Hkind Hns. apply In_fetched. exists gvk. auto.
  - intros pre gvk post -> Hfails.
    rewrite FetchK8sObjects_run. simpl. f_equal. symmetry.
    apply fetched_without. unfold resolve.
    destruct (kindPasses Contains conf gvk); [|reflexivity].
    destruct Hfails as [[err Herr] | [m [err [Hm Herr]]]].
    + now rewrite Herr.
    + rewrite Hm. simpl. unfold listing.
      destruct (notListable _); [reflexivity|]. now rewrite Herr.
Qed.

End Survivors.

(* ===================================================================== *)
(** * Resources that are never listed                                     *)
(* ===================================================================== *)

Lemma notListable_spec r :
  notListable r = true <->
  strings.Contains (schema.GroupVersionResource.Resource r) "lists" = true
  \/ strings.Contains (schema.GroupVersionResource.Resource r) "reviews" = true
  \/ strings.EqualFold (schema.GroupVersionResource.Resource r) "bindings" = true.
Proof. unfold notListable. rewrite !orb_true_iff. tauto. Qed.

Section Unlistable.

Variable Contains : string -> list string -> bool.

Lemma list_call_is_listable c conf gvks r :
  In (clientset_List r) (fetchCalls Contains c conf gvks) -> notListable r = false.
Proof.
  unfold fetchCalls. rewrite List.in_app_iff, !List.in_flat_map.
  intros [[gvk [_ Hin]] | [r' [_ Hin]]].
  - unfold resolveCalls in Hin.
    destruct (kindPasses Contains conf gvk); simpl in Hin; [|contradiction].
    destruct Hin as [Hin|[]]. discriminate.
  - unfold listingCalls in Hin.
    destruct (notListable r') eqn:Hskip; [contradiction|].
    destruct (dynamic.Interface.List (clientset c) r'); simpl in Hin.
    + destruct Hin as [Hin|[]]. now injection Hin as <-.
    + destruct Hin as [Hin|[Hin|[]]]; [now injection Hin as <- | discriminate].
Qed.

(** The fetch sees a cluster only through its mapper and through the list
    answers of the resources it lists. *)
Lemma fetch_agrees c c' conf gvks :
  disco c' = disco c ->
  (forall r, notListable r = false ->
             dynamic.Interface.List (clientset c') r = dynamic.Interface.List (clientset c) r) ->
  fetched Contains c' conf gvks = fetched Contains c conf gvks
  /\ fetchCalls Contains c' conf gvks = fetchCalls Contains c conf gvks.
Proof.
  intros Hdisco Hlist.
  assert (Hresolve : List.flat_map (resolve Contains c' conf) gvks
                     = List.flat_map (resolve Contains c conf) gvks).
  { apply List.flat_map_ext. intros gvk. unfold resolve, answerOf. now rewrite Hdisco. }
  unfold fetched, fetchCalls. rewrite Hresolve. split; [|f_equal].
  - apply List.flat_map_ext. intros r. unfold listing.
    destruct (notListable r) eqn:Hskip; [reflexivity|]. now rewrite Hlist.
  - apply List.flat_map_ext. intros r. unfold listingCalls.
    destruct (notListable r) eqn:Hskip; [reflexivity|]. now rewrite Hlist.
Qed.

(** C4, as the code has it.  A resource whose plural name contains
    ["lists"] or contains ["reviews"] (both compared byte by byte, so in
    lower case only), or equals ["bindings"] whatever the case of its
    letters, is never listed: the run makes no list call for it, and the
    objects returned and the calls made are the same whatever the cluster
    would answer to such a call. *)
Theorem unlistable_resources_are_skipped c gvks conf tr :
  exists objs calls,
    FetchK8sObjects Contains c gvks (Some conf) tr = (Returned objs, tr ++ calls)
    /\ (forall r,
          strings.Contains (schema.GroupVersionResource.Resource r) "lists" = true
          \/ strings.Contains (schema.GroupVersionResource.Resource r) "reviews" = true
          \/ strings.EqualFold (schema.GroupVersionResource.Resource r) "bindings" = true ->
          ~ In (clientset_List r) calls)
    /\ (forall c',
          disco c' = disco c ->
          (forall r,
             strings.Contains (schema.GroupVersionResource.Resource r) "lists" = false ->
             strings.Contains (schema.GroupVersionResource.Resource r) "reviews" = false ->
             strings.EqualFold (schema.GroupVersionResource.Resource r) "bindings" = false ->
             dynamic.Interface.List (clientset c') r
             = dynamic.Interface.List (clientset c) r) ->
          FetchK8sObjects Contains c' gvks (Some conf) tr = (Returned objs, tr ++ calls)).
Proof.
  exists (fetched Contains c conf gvks), (fetchCalls Contains c conf gvks).
  split; [apply FetchK8sObjects_run|]. split.
  - intros r Hname Hcall.
    apply notListable_spec in Hname.
    apply list_call_is_listable in Hcall. congruence.
  - intros c' Hdisco Hlist.
    rewrite FetchK8sObjects_run.
    destruct (fetch_agrees c c' conf gvks Hdisco) as [-> ->]; [|reflexivity].
    intros r Hskip. unfold notListable in Hskip.
    apply orb_false_iff in Hskip as [Hskip Hbindings].
    apply orb_false_iff in Hskip as [Hlists Hreviews].
    now apply Hlist.
Qed.

End Unlistable.

(* ===================================================================== *)
(** * The version query                                                   *)
(* ===================================================================== *)

Lemma append_empty_r (s : string) : s +:+ "" = s.
Proof. induction s as [|c s IH]; append_step; [reflexivity | now rewrite IH]. Qed.

Lemma append_assoc (s t u : string) : (s +:+ t) +:+ u = s +:+ (t +:+ u).
Proof. induction s as [|c s IH]; append_step; [reflexivity | now rewrite IH]. Qed.

Lemma Sprintf_dotted a b : fmt.Sprintf "%s.%s" [a; b] = a +:+ "." +:+ b.
Proof. cbn. append_step. now rewrite append_empty_r. Qed.

Lemma inCutset_plus c : strings.inCutset "+" c = Ascii.eqb c "+".
Proof. unfold strings.inCutset. simpl. now rewrite orb_false_r. Qed.

(** Every string is a core with no plus sign at its end, followed by plus
    signs; [TrimRight] keeps the core. *)
Lemma TrimRight_plus s :
  exists trailing,
    s = strings.TrimRight s "+" +:+ pluses trailing
    /\ strings.HasSuffix (strings.TrimRight s "+") "+" = false.
Proof.
  induction s as [|c s [n [Hs Hsuffix]]].
  - exists O. split; reflexivity.
  - simpl. destruct (strings.TrimRight s "+") as [|d kept] eqn:Hkept.
    + rewrite inCutset_plus. append_step.
      destruct (Ascii.eqb_spec c "+") as [->|Hc].
      * exists (S n). split; [simpl; now rewrite <- Hs | reflexivity].
      * exists n. append_step. split; [now rewrite <- Hs|].
        simpl. destruct (Ascii.eqb_spec c "+"); [contradiction | reflexivity].
    + exists n. append_step. split; [now rewrite <- Hs|].
      simpl in *. rewrite Hsuffix.
      destruct (Ascii.eqb c "+"); [|reflexivity].
      destruct (Ascii.eqb d "+"); [|reflexivity]. now destruct kept.
Qed.

Lemma HasSuffix_tail c s suffix :
  strings.HasSuffix (String c s) suffix = false -> strings.HasSuffix s suffix = false.
Proof. simpl. intros H. now apply orb_false_iff in H as [_ H]. Qed.

(** And a string is plus signs followed by a core with no plus sign at its
    head; [TrimLeft] keeps the core. *)
Lemma TrimLeft_plus s :
  exists leading,
    s = pluses leading +:+ strings.TrimLeft s "+"
    /\ strings.HasPrefix (strings.TrimLeft s "+") "+" = false
    /\ (strings.HasSuffix s "+" = false ->
        strings.HasSuffix (strings.TrimLeft s "+") "+" = false).
Proof.
  induction s as [|c s [n (Hs & Hprefix & Hsuffix)]].
  - exists O. repeat split.
  - simpl strings.TrimLeft. rewrite inCutset_plus.
    destruct (Ascii.eqb_spec c "+") as [->|Hc].
    + exists (S n). simpl pluses. append_step. split; [now rewrite <- Hs|].
      split; [assumption|].
      intros H. apply Hsuffix. now apply HasSuffix_tail in H.
    + exists O. simpl pluses. append_step. repeat split.
      * simpl. destruct (Ascii.eqb_spec c "+"); [contradiction | reflexivity].
      * auto.
Qed.

Lemma Trim_plus_decomposes s :
  exists leading trailing,
    s = pluses leading +:+ strings.Trim s "+" +:+ pluses trailing
    /\ strings.HasPrefix (strings.Trim s "+") "+" = false
    /\ strings.HasSuffix (strings.Trim s "+") "+" = false.
Proof.
  destruct (TrimRight_plus s) as [trailing [Hright Hsuffix]].
  destruct (TrimLeft_plus (strings.TrimRight s "+")) as [leading (Hleft & Hprefix & Hkeeps)].
  exists leading, trailing. unfold strings.Trim. repeat split; auto.
  rewrite <- append_assoc, <- Hleft. exact Hright.
Qed.

(** C7, as the code has it.  When the discovery call succeeds,
    [ServerVersion] returns [<major>.<core>] and a nil error, where the
    minor component is the core between a run of leading and a run of
    trailing plus signs, the core itself having a plus sign neither at its
    head nor at its end: the plus signs are stripped on both sides.  When
    the discovery call fails it returns the empty string and that error. *)
Theorem ServerVersion_strips_plus_signs c tr :
  match discovery.DiscoveryInterface.ServerVersion (disco c) with
  | Ok info =>
    exists leading core trailing,
      version.Info.Minor info = pluses leading +:+ core +:+ pluses trailing
      /\ strings.HasPrefix core "+" = false
      /\ strings.HasSuffix core "+" = false
      /\ ServerVersion c tr
         = (Returned (version.Info.Major info +:+ "." +:+ core, None),
            tr ++ [disco_ServerVersion])
  | Err err =>
    ServerVersion c tr = (Returned ("", Some err), tr ++ [disco_ServerVersion])
  end.
Proof.
  unfold ServerVersion, call, bind, emit, ret.
  destruct (discovery.DiscoveryInterface.ServerVersion (disco c)) as [info|err];
    [|reflexivity].
  destruct (Trim_plus_decomposes (version.Info.Minor info))
    as [leading [trailing (Hminor & Hprefix & Hsuffix)]].
  exists leading, (strings.Trim (version.Info.Minor info) "+"), trailing.
  repeat split; try assumption.
  now rewrite Sprintf_dotted.
Qed.

(* ===================================================================== *)
(** * The constructor                                                     *)
(* ===================================================================== *)

(** C8.  A call of [NewClusterFromEnvOrConfig] reads the local-dev flag of
    the environment and then attempts one strategy, the selected one: the
    local-dev one when the flag is ["true"], else the configuration passed
    in when there is one, else the in-cluster one.  Every call it makes
    for a strategy is a call of the selected strategy, and it does make
    the first call of that one; for the configuration passed in, which
    takes no call, the first call builds the discovery client on it.
    When the selected strategy cannot yield a configuration the call
    panics.  When it yields one, the two clients are built on it, silenced:
    the handle is returned if both are built, and the call panics with
    the error of the first that is not.  A handle is returned only built
    in full on the configuration the selected strategy yields. *)
Theorem one_resolution_strategy h restConfig tr r tr' :
  NewClusterFromEnvOrConfig h restConfig tr = (r, tr') ->
  exists calls,
    tr' = tr ++ os_Getenv "USE_LOCAL_DEV_MODE" :: calls
    /\ (forall e s, In e calls -> strategyOf e = Some s -> s = selected h restConfig)
    /\ (selected h restConfig = LocalDev -> List.head calls = Some user_Current)
    /\ (selected h restConfig = InCluster -> List.head calls = Some rest_InClusterConfig)
    /\ ((forall config, ~ succeeds h tr restConfig (selected h restConfig) config) ->
        exists v, r = Panicked v)
    /\ (forall c, r = Returned c ->
          exists config,
            succeeds h tr restConfig (selected h restConfig) config /\ builtOn h config c)
    /\ (forall config,
          selected h restConfig = Injected ->
          restConfig = Some config ->
          List.head calls
          = Some (discovery_NewDiscoveryClientForConfig
                    (rest.Config.setWarningHandler rest.NoWarnings config)))
    /\ (forall config,
          succeeds h tr restConfig (selected h restConfig) config ->
          let quiet := rest.Config.setWarningHandler rest.NoWarnings config in
          In (discovery_NewDiscoveryClientForConfig quiet) calls
          /\ r = match NewDiscoveryClientForConfig h quiet with
                 | Err err => Panicked err
                 | Ok d =>
                   match NewForConfig h quiet with
                   | Err err => Panicked err
                   | Ok cs =>
                     Returned {| resources := []; disco := d; restConfig := Some quiet;
                                 kubernetesVersion := ""; clientset := cs;
                                 Name := ""; Version := "" |}
                   end
                 end).
Proof.
  intros Hrun.
  unfold NewClusterFromEnvOrConfig, flag_String_var, fmt_Println, call, history,
    bind, emit, ret, panic in Hrun.
  rewrite <- ?app_assoc in Hrun. simpl app in Hrun.
  unfold selected.
  (* one case per path through the function *)
  repeat (case_match; simplify_eq); rewrite <- ?app_assoc in *; simpl app in *.
  (* the calls made so far define no flag *)
  all: rewrite ?List.existsb_app in *; simpl existsb in *; rewrite ?orb_false_r in *.
  all: eexists; split; [reflexivity|].
  all: split;
    [ intros e s Hin Hs; simpl in Hin;
      repeat (destruct Hin as [<-|Hin]; [simpl in Hs; congruence|]); contradiction |].
  all: split; [intros; first [reflexivity | discriminate] |].
  all: split; [intros; first [reflexivity | discriminate] |].
  all: split;
    [ intros Hfails; first [ eexists; reflexivity
                           | exfalso; eapply Hfails; simpl; eauto ] |].
  all: split;
    [ intros c Hc;
      first [ discriminate Hc
            | simplify_eq;
              eexists; split; [simpl; eauto | unfold builtOn; simpl; auto] ] |].
  all: split;
    [ intros config Hselected Hinjected;
      first [ discriminate Hselected | simplify_eq; reflexivity ] |].
  (* what the selected strategy yields is what the run went on with *)
  all: intros config Hyields; simpl in Hyields;
       try match type of Hyields with
           | ex _ => destruct Hyields as [usr (Husr & Hflag & Hyields)]
           end;
       simplify_eq;
       repeat (match goal with
               | H : ?answer = Ok _, H' : ?answer = _ |- _ => rewrite H in H'
               | H : ?answer = Err _, H' : ?answer = _ |- _ => rewrite H in H'
               | H : ?test = true, H' : ?test = false |- _ => rewrite H in H'
               end; simplify_eq).
  all: cbv zeta;
       repeat match goal with
              | H : ?answer = _ |- context [match ?answer with _ => _ end] => rewrite H
              end.
  all: split; [simpl; tauto | reflexivity].
Qed.

(** [NewCluster] has one way to a configuration, and is as strict: a handle
    is returned only when the kubeconfig loads and yields a client
    configuration, built in full on it. *)
Lemma NewCluster_all_or_nothing h kubeconfig kubecontext tr c tr' :
  NewCluster h kubeconfig kubecontext tr = (Returned c, tr') ->
  exists o overrides config restConfig,
    clientcmd.PathOptions.GlobalFile o
    = (if (String.length kubeconfig =? 0)%nat then RecommendedHomeFile h else kubeconfig)
    /\ clientcmd.ConfigOverrides.CurrentContext overrides = kubecontext
    /\ GetStartingConfig h o = Ok config
    /\ ClientConfig h config overrides = Ok restConfig
    /\ builtOn h restConfig c.
Proof.
  unfold NewCluster, pointer, field, call, bind, emit, ret, panic, builtOn.
  intros Hrun.
  repeat (case_match; simplify_eq).
  all: eexists _, _, _, _.
  all: split; [|split; [|split; [eassumption | split; [eassumption | simpl; auto]]]].
  all: simpl; try reflexivity.
  all: match goal with
       | H : negb (String.eqb _ _) = false |- _ =>
         apply negb_false_iff, String.eqb_eq in H; now subst
       | H : negb (Nat.eqb _ _) = _, H' : Nat.eqb _ _ = _ |- _ =>
         rewrite H' in H; discriminate
       end.
Qed.

(* ===================================================================== *)
(** * The properties on the small cluster                                 *)
(* ===================================================================== *)

(** ** The scenarios of the specification *)

(** Kind deny-list [Secret], nothing else: the two pods. *)
Example scenario_deny_secrets :
  fst (FetchK8sObjects ContainsName demo.cluster [demo.Pod; demo.Secret]
         (Some demo.denySecrets) [])
  = Returned [demo.web; demo.canary].
Proof. vm_compute. reflexivity. Qed.

(** Namespace allow-list [prod]: the object in [prod] only. *)
Example scenario_only_prod :
  fst (FetchK8sObjects ContainsName demo.cluster [demo.Pod] (Some demo.onlyProd) [])
  = Returned [demo.web].
Proof. vm_compute. reflexivity. Qed.

(** A list call that fails is reported on the standard output and costs
    the other resources nothing. *)
Example scenario_forbidden :
  FetchK8sObjects ContainsName demo.cluster [demo.Deployment; demo.Pod]
    (Some demo.everything) []
  = (Returned [demo.web; demo.canary],
     [demo.resolving demo.Deployment; demo.resolving demo.Pod;
      demo.listingOf demo.deployments;
      stdout ("err while fetching resource apps/v1, Resource=deployments"
              +:+ " error deployments.apps is forbidden" +:+ fmt.newline);
      demo.listingOf demo.pods]).
Proof. vm_compute. reflexivity. Qed.

(** Major 1, minor 28+: version 1.28. *)
Example scenario_version :
  fst (ServerVersion demo.cluster []) = Returned ("1.28", None).
Proof. reflexivity. Qed.

(** ** A configuration that is not there *)

(** [conf] is a pointer.  With no kind reference it is never read; with
    one, the first [conf.IgnoreKinds] panics. *)
Lemma FetchK8sObjects_nil_conf Contains c gvks tr :
  FetchK8sObjects Contains c gvks None tr
  = match gvks with
    | [] => (Returned [], tr)
    | _ :: _ =>
      (Panicked "runtime error: invalid memory address or nil pointer dereference", tr)
    end.
Proof. destruct gvks; reflexivity. Qed.

(** A context the kubeconfig does not have: [ClientConfig] fails, and the
    panic is the nil pointer dereference of line 52, not the error. *)
Example NewCluster_unknown_context :
  NewCluster demo.laptop "" "prod" []
  = (Panicked "runtime error: invalid memory address or nil pointer dereference",
     [clientcmd_GetStartingConfig
        {| clientcmd.PathOptions.GlobalFile := "/home/dev/.kube/config" |};
      clientcmd_ClientConfig
        {| clientcmd.Config.CurrentContext := "kind";
           clientcmd.Config.Contexts := ["kind"] |}
        {| clientcmd.ConfigOverrides.CurrentContext := "prod" |}]).
Proof. reflexivity. Qed.

(** ** Where the objects of the small cluster come from *)

Lemma web_originates gvks :
  In demo.Pod gvks -> originates demo.cluster gvks demo.Pod demo.web.
Proof.
  intros Hin. eexists _, _.
  split; [exact Hin|]. split; [reflexivity|]. split; [reflexivity|].
  split; [reflexivity|]. now left.
Qed.

Lemma canary_originates gvks :
  In demo.Pod gvks -> originates demo.cluster gvks demo.Pod demo.canary.
Proof.
  intros Hin. eexists _, _.
  split; [exact Hin|]. split; [reflexivity|]. split; [reflexivity|].
  split; [reflexivity|]. right. now left.
Qed.

Lemma worker_originates gvks :
  In demo.Node gvks -> originates demo.cluster gvks demo.Node demo.worker.
Proof.
  intros Hin. eexists _, _.
  split; [exact Hin|]. split; [reflexivity|]. split; [reflexivity|].
  split; [reflexivity|]. now left.
Qed.

(** ** The properties of the specification, on runs *)

(** Pods and secrets asked for, secrets denied: the run is the run that
    asks for pods only. *)
Lemma denied_kind_contributes_nothing_witness :
  FetchK8sObjects ContainsName demo.cluster [demo.Pod; demo.Secret]
    (Some demo.denySecrets) []
  = (Returned [demo.web; demo.canary],
     [demo.resolving demo.Pod; demo.listingOf demo.pods])
  /\ FetchK8sObjects ContainsName demo.cluster [demo.Pod] (Some demo.denySecrets) []
     = (Returned [demo.web; demo.canary],
        [demo.resolving demo.Pod; demo.listingOf demo.pods]).
Proof.
  assert (Hrun :
    FetchK8sObjects ContainsName demo.cluster [demo.Pod; demo.Secret]
      (Some demo.denySecrets) []
    = (Returned [demo.web; demo.canary],
       [demo.resolving demo.Pod; demo.listingOf demo.pods]))
    by (vm_compute; reflexivity).
  split; [exact Hrun|].
  exact (proj2 (denied_kind_contributes_nothing ContainsName
                  demo.cluster [demo.Pod; demo.Secret] demo.denySecrets []
                  [demo.web; demo.canary] _ Hrun)
               [demo.Pod] demo.Secret [] eq_refl eq_refl).
Defined.

(** Secrets and pods asked for, pods alone allowed: the canary comes from
    the kind reference [Pod]. *)
Lemma allow_list_restricts_kinds_witness :
  FetchK8sObjects ContainsName demo.cluster [demo.Secret; demo.Pod]
    (Some demo.onlyPods) []
  = (Returned [demo.web; demo.canary],
     [demo.resolving demo.Pod; demo.listingOf demo.pods])
  /\ exists gvk,
       originates demo.cluster [demo.Secret; demo.Pod] gvk demo.canary
       /\ ContainsName (schema.GroupVersionKind.Kind gvk) (SelectKinds demo.onlyPods) = true.
Proof.
  assert (Hrun :
    FetchK8sObjects ContainsName demo.cluster [demo.Secret; demo.Pod]
      (Some demo.onlyPods) []
    = (Returned [demo.web; demo.canary],
       [demo.resolving demo.Pod; demo.listingOf demo.pods]))
    by (vm_compute; reflexivity).
  split; [exact Hrun|].
  apply (proj1 (allow_list_restricts_kinds ContainsName
                  demo.cluster [demo.Secret; demo.Pod] demo.onlyPods []
                  [demo.web; demo.canary] _ Hrun)).
  - discriminate.
  - right. now left.
Defined.

(** Namespace [prod] alone allowed: the canary, in [staging], is missing
    for that reason. *)
Lemma namespace_filter_exact_witness :
  ~ In demo.canary [demo.web] <->
  ContainsName (effectiveNamespace demo.canary) (IgnoreNamespaces demo.onlyProd) = true
  \/ (SelectNamespaces demo.onlyProd <> []
      /\ ContainsName (effectiveNamespace demo.canary) (SelectNamespaces demo.onlyProd)
         = false).
Proof.
  apply (namespace_filter_exact ContainsName demo.cluster [demo.Pod] demo.onlyProd []
           [demo.web] [demo.resolving demo.Pod; demo.listingOf demo.pods]
           demo.Pod demo.canary).
  - vm_compute. reflexivity.
  - apply canary_originates. now left.
  - reflexivity.
Defined.

(** Pods and nodes, no filter: the node is returned as listed, without a
    namespace. *)
Lemma result_is_raw_listing_filtered_witness :
  exists entry,
    In entry [demo.web; demo.canary; demo.worker]
    /\ entry = demo.worker
    /\ unstructured.Unstructured.GetNamespace entry = "".
Proof.
  apply (proj2 (result_is_raw_listing_filtered ContainsName demo.cluster
                  [demo.Pod; demo.Node] demo.everything []
                  [demo.web; demo.canary; demo.worker]
                  [demo.resolving demo.Pod; demo.resolving demo.Node;
                   demo.listingOf demo.pods; demo.listingOf demo.nodes]
                  ltac:(vm_compute; reflexivity))
               demo.Node demo.worker).
  - apply worker_originates. right. now left.
  - reflexivity.
  - reflexivity.
  - reflexivity.
Defined.

(** Nodes, no filter: the node is kept because ["default"] passes. *)
Lemma empty_namespace_filtered_as_default_witness :
  In demo.worker [demo.worker] <->
  ContainsName "default" (IgnoreNamespaces demo.everything) = false
  /\ (SelectNamespaces demo.everything = []
      \/ ContainsName "default" (SelectNamespaces demo.everything) = true).
Proof.
  apply (proj1 (empty_namespace_filtered_as_default ContainsName demo.cluster
                  [demo.Node] demo.everything [] [demo.worker]
                  [demo.resolving demo.Node; demo.listingOf demo.nodes]
                  demo.Node demo.worker
                  ltac:(vm_compute; reflexivity)
                  (worker_originates [demo.Node] (or_introl eq_refl))
                  eq_refl eq_refl)).
Defined.

(** [Secret] and [prod] allowed and denied at once: the secrets are not
    asked for, the pod in [prod] is dropped. *)
Lemma deny_list_wins_witness :
  FetchK8sObjects ContainsName demo.cluster [demo.Secret; demo.Pod] (Some demo.torn) []
  = FetchK8sObjects ContainsName demo.cluster [demo.Pod] (Some demo.torn) []
  /\ ~ In demo.web [demo.canary].
Proof.
  destruct (deny_list_wins ContainsName demo.cluster demo.torn) as [Hkinds Hnamespaces].
  split.
  - exact (Hkinds [] demo.Secret [demo.Pod] [] eq_refl eq_refl).
  - apply (Hnamespaces [demo.Pod] [] [demo.canary]
             [demo.resolving demo.Pod; demo.listingOf demo.pods]);
      vm_compute; reflexivity.
Defined.

(** An unknown kind, a forbidden resource and pods: the pods are there,
    and the result is the one without the forbidden resource. *)
Lemma fetch_survives_failures_witness :
  exists objs,
    fst (FetchK8sObjects ContainsName demo.cluster
           [demo.Gadget; demo.Deployment; demo.Pod] (Some demo.everything) [])
    = Returned objs
    /\ In demo.web objs
    /\ fst (FetchK8sObjects ContainsName demo.cluster
              [demo.Gadget; demo.Pod] (Some demo.everything) [])
       = Returned objs.
Proof.
  destruct (fetch_survives_failures ContainsName demo.cluster
              [demo.Gadget; demo.Deployment; demo.Pod] demo.everything [])
    as [objs [calls (Hrun & Hall & Hwithout)]].
  exists objs. split; [now rewrite Hrun|]. split.
  - apply (Hall demo.Pod demo.web); [|reflexivity|reflexivity].
    apply web_originates. right. right. now left.
  - apply (Hwithout [demo.Gadget] demo.Deployment [demo.Pod] eq_refl).
    right. eexists _, _. split; reflexivity.
Defined.

(** Token reviews, bindings and pods: no list call for the first two, and
    the same run on a cluster that would answer them differently. *)
Lemma unlistable_resources_are_skipped_witness :
  exists objs calls,
    FetchK8sObjects ContainsName demo.cluster
      [demo.TokenReview; demo.Binding; demo.Pod] (Some demo.everything) []
    = (Returned objs, calls)
    /\ ~ In (clientset_List demo.tokenreviews) calls
    /\ ~ In (clientset_List demo.bindings) calls
    /\ FetchK8sObjects ContainsName (demo.clusterListing demo.ListMore)
         [demo.TokenReview; demo.Binding; demo.Pod] (Some demo.everything) []
       = (Returned objs, calls).
Proof.
  destruct (unlistable_resources_are_skipped ContainsName demo.cluster
              [demo.TokenReview; demo.Binding; demo.Pod] demo.everything [])
    as [objs [calls (Hrun & Hskipped & Hsame)]].
  exists objs, calls. split; [exact Hrun|]. split; [|split].
  - apply Hskipped. right. left. reflexivity.
  - apply Hskipped. right. right. reflexivity.
  - apply Hsame; [reflexivity|].
    intros r Hlists Hreviews Hbindings.
    unfold demo.clusterListing, demo.ListMore. simpl.
    destruct (String.eqb_spec (schema.GroupVersionResource.Resource r) "tokenreviews")
      as [Hname|_].
    + rewrite Hname in Hreviews. discriminate.
    + destruct (String.eqb_spec (schema.GroupVersionResource.Resource r) "bindings")
        as [Hname|_]; [|reflexivity].
      rewrite Hname in Hbindings. discriminate.
Defined.

(** On the developer's machine the local-dev strategy yields the handle. *)
Lemma one_resolution_strategy_witness :
  NewClusterFromEnvOrConfig demo.laptop None []
  = (Returned demo.handle,
     [os_Getenv "USE_LOCAL_DEV_MODE"; user_Current;
      flag_String "kubeconfig" "/home/dev/.kube/config"
        "(optional) absolute path to the kubeconfig file";
      clientcmd_BuildConfigFromFlags "" "/home/dev/.kube/config";
      discovery_NewDiscoveryClientForConfig
        (rest.Config.setWarningHandler rest.NoWarnings demo.kubeconfig);
      dynamic_NewForConfig
        (rest.Config.setWarningHandler rest.NoWarnings demo.kubeconfig)])
  /\ exists config,
       succeeds demo.laptop [] None (selected demo.laptop None) config
       /\ builtOn demo.laptop config demo.handle.
Proof.
  assert (Hrun :
    NewClusterFromEnvOrConfig demo.laptop None []
    = (Returned demo.handle,
       [os_Getenv "USE_LOCAL_DEV_MODE"; user_Current;
        flag_String "kubeconfig" "/home/dev/.kube/config"
          "(optional) absolute path to the kubeconfig file";
        clientcmd_BuildConfigFromFlags "" "/home/dev/.kube/config";
        discovery_NewDiscoveryClientForConfig
          (rest.Config.setWarningHandler rest.NoWarnings demo.kubeconfig);
        dynamic_NewForConfig
          (rest.Config.setWarningHandler rest.NoWarnings demo.kubeconfig)]))
    by reflexivity.
  split; [exact Hrun|].
  destruct (one_resolution_strategy demo.laptop None [] _ _ Hrun)
    as [calls (_ & _ & _ & _ & _ & Hbuilt & _)].
  exact (Hbuilt demo.handle eq_refl).
Defined.

(** ** Where the specification says more than the code does *)

(** C1 at a node, which has no namespace: the node is listed, passes the
    (empty) filters and is returned, and the entry of the result reports
    the empty namespace, not ["default"]. *)
Lemma empty_namespace_is_not_reported_as_default :
  dynamic.Interface.List (clientset demo.cluster) demo.nodes = demo.items [demo.worker]
  /\ unstructured.Unstructured.GetNamespace demo.worker = ""
  /\ FetchK8sObjects ContainsName demo.cluster [demo.Node] (Some demo.everything) []
     = (Returned [demo.worker], [demo.resolving demo.Node; demo.listingOf demo.nodes])
  /\ List.map unstructured.Unstructured.GetNamespace [demo.worker] = [""]
  /\ List.map unstructured.Unstructured.GetNamespace [demo.worker] <> ["default"].
Proof.
  split; [reflexivity|]. split; [reflexivity|].
  split; [vm_compute; reflexivity|]. split; [reflexivity | discriminate].
Qed.

(** C4 at the resource [AuditReviews]: its name contains ["reviews"] when
    case is ignored, and yet it is listed and its object returned. *)
Lemma mixed_case_reviews_are_listed :
  strings.Contains (strings.ToLower "AuditReviews") "reviews" = true
  /\ FetchK8sObjects ContainsName demo.cluster [demo.AuditReview]
       (Some demo.everything) []
     = (Returned [demo.audit],
        [demo.resolving demo.AuditReview; clientset_List demo.auditReviews]).
Proof. split; [reflexivity | vm_compute; reflexivity]. Qed.

(** C7 at the minor component ["+28"]: stripping the trailing plus signs
    leaves it as it is, and the version would read ["1.+28"]; the code
    strips the leading plus sign too and returns ["1.28"]. *)
Lemma leading_plus_is_stripped_too :
  "1" +:+ "." +:+ strings.TrimRight "+28" "+" = "1.+28"
  /\ ServerVersion (demo.clusterOf (Ok (demo.info "1" "+28"))) []
     = (Returned ("1.28", None), [disco_ServerVersion])
  /\ fst (ServerVersion (demo.clusterOf (Ok (demo.info "1" "+28"))) [])
     <> Returned ("1" +:+ "." +:+ strings.TrimRight "+28" "+", None).
Proof. split; [reflexivity|]. split; [reflexivity | discriminate]. Qed.

(* ===================================================================== *)
(** * More on the constructors                                            *)
(* ===================================================================== *)

(** [NewCluster] returns a handle only when the kubeconfig loads and yields
    a client configuration: the file is the one given, or the default one
    for an empty path; the context is the one given (empty: the current
    context of the file); and the handle is built in full on the
    configuration. *)
Theorem NewCluster_returns_only_built h kubeconfig kubecontext tr c tr' :
  NewCluster h kubeconfig kubecontext tr = (Returned c, tr') ->
  exists config restConfig,
    GetStartingConfig h (pathOptionsOf h kubeconfig) = Ok config
    /\ ClientConfig h config (overridesOf kubecontext) = Ok restConfig
    /\ builtOn h restConfig c.
Proof.
  intros Hrun.
  destruct (NewCluster_all_or_nothing h kubeconfig kubecontext tr c tr' Hrun)
    as [[file] [[context] [config [restConfig (Hfile & Hcontext & Hload & Hclient & Hbuilt)]]]].
  simpl in Hfile, Hcontext. subst file context.
  exists config, restConfig. auto.
Qed.

Lemma NewCluster_options h kubeconfig kubecontext :
  (if negb (String.length kubeconfig =? 0)%nat
   then {| clientcmd.PathOptions.GlobalFile := kubeconfig |}
   else {| clientcmd.PathOptions.GlobalFile := RecommendedHomeFile h |})
  = pathOptionsOf h kubeconfig
  /\ (if negb (String.eqb kubecontext "")
      then {| clientcmd.ConfigOverrides.CurrentContext := kubecontext |}
      else {| clientcmd.ConfigOverrides.CurrentContext := "" |})
     = overridesOf kubecontext.
Proof.
  unfold pathOptionsOf, overridesOf. split.
  - now destruct (String.length kubeconfig =? 0)%nat.
  - destruct (String.eqb_spec kubecontext "") as [->|]; reflexivity.
Qed.

(** When the kubeconfig loads and [ClientConfig] fails, [NewCluster] panics
    with a nil pointer dereference (line 52 writes through the nil
    configuration before line 53 looks at the error): the error of
    [ClientConfig] is not the panic value, and no client is built. *)
Theorem NewCluster_loses_the_ClientConfig_error h kubeconfig kubecontext tr config err :
  GetStartingConfig h (pathOptionsOf h kubeconfig) = Ok config ->
  ClientConfig h config (overridesOf kubecontext) = Err err ->
  NewCluster h kubeconfig kubecontext tr
  = (Panicked nilDereference,
     tr ++ [clientcmd_GetStartingConfig (pathOptionsOf h kubeconfig);
            clientcmd_ClientConfig config (overridesOf kubecontext)]).
Proof.
  intros Hload Hclient.
  unfold NewCluster.
  destruct (NewCluster_options h kubeconfig kubecontext) as [-> ->].
  unfold call, bind, emit, ret. rewrite Hload. simpl.
  rewrite Hclient. simpl. now rewrite <- app_assoc.
Qed.

(** [NewCluster] makes its calls in one order and stops at the first that
    fails.  If the kubeconfig does not load, that is the only call, and
    the panic has its error.  If it loads and yields no client
    configuration, the calls are these two, and the panic is the nil
    pointer dereference.  Otherwise the discovery client is built on the
    client configuration, silenced: if that fails, the calls are these
    three and the panic has its error.  Otherwise the dynamic client is
    built on the same configuration, after which the calls are the four:
    the panic has its error, or the handle is returned.  No other call is
    made on any path (no environment variable read, no flag defined,
    nothing printed). *)
Theorem NewCluster_calls_in_order h kubeconfig kubecontext tr :
  let o := pathOptionsOf h kubeconfig in
  let overrides := overridesOf kubecontext in
  match GetStartingConfig h o with
  | Err err =>
    NewCluster h kubeconfig kubecontext tr
    = (Panicked err, tr ++ [clientcmd_GetStartingConfig o])
  | Ok config =>
    match ClientConfig h config overrides with
    | Err _ =>
      NewCluster h kubeconfig kubecontext tr
      = (Panicked nilDereference,
         tr ++ [clientcmd_GetStartingConfig o; clientcmd_ClientConfig config overrides])
    | Ok restConfig =>
      let quiet := rest.Config.setWarningHandler rest.NoWarnings restConfig in
      match NewDiscoveryClientForConfig h quiet with
      | Err err =>
        NewCluster h kubeconfig kubecontext tr
        = (Panicked err,
           tr ++ [clientcmd_GetStartingConfig o; clientcmd_ClientConfig config overrides;
                  discovery_NewDiscoveryClientForConfig quiet])
      | Ok d =>
        match NewForConfig h quiet with
        | Err err =>
          NewCluster h kubeconfig kubecontext tr
          = (Panicked err,
             tr ++ [clientcmd_GetStartingConfig o; clientcmd_ClientConfig config overrides;
                    discovery_NewDiscoveryClientForConfig quiet;
                    dynamic_NewForConfig quiet])
        | Ok cs =>
          NewCluster h kubeconfig kubecontext tr
          = (Returned {| resources := []; disco := d; restConfig := Some quiet;
                         kubernetesVersion := ""; clientset := cs;
                         Name := ""; Version := "" |},
             tr ++ [clientcmd_GetStartingConfig o; clientcmd_ClientConfig config overrides;
                    discovery_NewDiscoveryClientForConfig quiet;
                    dynamic_NewForConfig quiet])
        end
      end
    end
  end.
Proof.
  cbv zeta. unfold NewCluster.
  destruct (NewCluster_options h kubeconfig kubecontext) as [-> ->].
  unfold pointer, field, call, bind, emit, ret, panic.
  destruct (GetStartingConfig h (pathOptionsOf h kubeconfig)) as [config|err];
    [|reflexivity].
  destruct (ClientConfig h config (overridesOf kubecontext)) as [restConfig|err];
    [|simpl; now rewrite <- app_assoc].
  simpl.
  destruct (NewDiscoveryClientForConfig h _) as [d|err];
    [|now rewrite <- !app_assoc].
  destruct (NewForConfig h _) as [cs|err]; now rewrite <- !app_assoc.
Qed.

(** A handle that a constructor returns is bare: its configuration has the
    warnings silenced, and [resources], [kubernetesVersion], [Name] and
    [Version] are left at their zero values, whichever constructor and
    whichever strategy built it. *)
Theorem constructors_return_bare_handles h :
  (forall kubeconfig kubecontext tr c tr',
     NewCluster h kubeconfig kubecontext tr = (Returned c, tr') -> bare c)
  /\ (forall restConfig tr c tr',
        NewClusterFromEnvOrConfig h restConfig tr = (Returned c, tr') -> bare c).
Proof.
  split.
  - intros kubeconfig kubecontext tr c tr' Hrun.
    unfold NewCluster, pointer, field, call, bind, emit, ret, panic in Hrun.
    repeat (case_match; simplify_eq).
    all: unfold bare; simpl; repeat split; eexists; split; reflexivity.
  - intros restConfig tr c tr' Hrun.
    unfold NewClusterFromEnvOrConfig, flag_String_var, fmt_Println, call, history,
      bind, emit, ret, panic in Hrun.
    repeat (case_match; simplify_eq).
    all: unfold bare; simpl; repeat split; eexists; split; reflexivity.
Qed.

(** In local-dev mode the configuration passed in is not looked at: the
    outcome and the calls are the same whatever it is, nil or not. *)
Theorem local_dev_ignores_the_injected_configuration h restConfig restConfig' tr :
  Getenv h "USE_LOCAL_DEV_MODE" = "true" ->
  NewClusterFromEnvOrConfig h restConfig tr = NewClusterFromEnvOrConfig h restConfig' tr.
Proof.
  intros Hmode.
  unfold NewClusterFromEnvOrConfig, call, bind, emit, ret.
  now rewrite Hmode.
Qed.

(** Whatever a call in local-dev mode did once the current user was known,
    it leaves the flag [kubeconfig] defined. *)
Lemma local_dev_defines_the_flag h restConfig tr r tr' usr :
  Getenv h "USE_LOCAL_DEV_MODE" = "true" ->
  Current h = Ok usr ->
  NewClusterFromEnvOrConfig h restConfig tr = (r, tr') ->
  existsb (isFlag "kubeconfig") tr' = true.
Proof.
  intros Hmode Husr Hrun.
  unfold NewClusterFromEnvOrConfig, flag_String_var, fmt_Println, call, history,
    bind, emit, ret, panic in Hrun.
  rewrite Hmode, Husr in Hrun. simpl in Hrun.
  repeat (case_match; simplify_eq).
  all: rewrite ?List.existsb_app in *; simpl in *;
       rewrite ?orb_false_r, ?orb_true_r in *; try reflexivity; try assumption.
Qed.

(** The constructor cannot be used twice in local-dev mode.  After one call
    that got as far as the current user, every further call in the same
    process panics with the flag set's complaint about a second
    [kubeconfig] flag, before it builds any configuration or client,
    whatever the first call came to and whatever is passed in. *)
Theorem local_dev_constructor_runs_once h restConfig restConfig' tr r tr' usr :
  Getenv h "USE_LOCAL_DEV_MODE" = "true" ->
  Current h = Ok usr ->
  NewClusterFromEnvOrConfig h restConfig tr = (r, tr') ->
  NewClusterFromEnvOrConfig h restConfig' tr'
  = (Panicked (kubeconfigRedefined h),
     tr' ++ [os_Getenv "USE_LOCAL_DEV_MODE"; user_Current;
             stderr (kubeconfigRedefined h +:+ fmt.newline)]).
Proof.
  intros Hmode Husr Hrun.
  assert (Hflag := local_dev_defines_the_flag h restConfig tr r tr' usr Hmode Husr Hrun).
  unfold NewClusterFromEnvOrConfig, flag_String_var, call, history, bind, emit, ret, panic.
  rewrite Hmode, Husr, String.eqb_refl. cbv iota beta.
  rewrite !List.existsb_app, Hflag. simpl orb. cbv iota beta.
  unfold kubeconfigRedefined.
  destruct (String.length (Args0 h) =? 0)%nat; cbn.
  - now rewrite <- !app_assoc.
  - rewrite <- !app_assoc. simpl app. append_step. reflexivity.
Qed.

(* ===================================================================== *)
(** * More on the version query                                           *)
(* ===================================================================== *)

Lemma TrimRight_keeps s :
  strings.HasSuffix s "+" = false -> strings.TrimRight s "+" = s.
Proof.
  induction s as [|c s IH]; [reflexivity|].
  intros Hsuffix. simpl in Hsuffix.
  apply orb_false_iff in Hsuffix as [Hlast Hsuffix].
  simpl. rewrite (IH Hsuffix).
  destruct s as [|d s]; [|reflexivity].
  rewrite inCutset_plus.
  destruct (Ascii.eqb_spec c "+") as [->|_]; [|reflexivity].
  apply String.eqb_neq in Hlast. now contradiction Hlast.
Qed.

Lemma TrimLeft_keeps s :
  strings.HasPrefix s "+" = false -> strings.TrimLeft s "+" = s.
Proof.
  destruct s as [|c s]; [reflexivity|].
  simpl. rewrite inCutset_plus.
  assert (Hempty : strings.HasPrefix s "" = true) by now destruct s.
  rewrite Hempty.
  destruct (Ascii.eqb c "+"); [discriminate | reflexivity].
Qed.

Lemma TrimRight_pluses n : strings.TrimRight (pluses n) "+" = "".
Proof. induction n as [|n IH]; [reflexivity|]. simpl. now rewrite IH. Qed.

(** A minor component with no plus sign at either end is reported as it
    is: the version is [<major>.<minor>], byte for byte. *)
Theorem ServerVersion_keeps_a_plain_minor c tr info :
  discovery.DiscoveryInterface.ServerVersion (disco c) = Ok info ->
  strings.HasPrefix (version.Info.Minor info) "+" = false ->
  strings.HasSuffix (version.Info.Minor info) "+" = false ->
  ServerVersion c tr
  = (Returned (version.Info.Major info +:+ "." +:+ version.Info.Minor info, None),
     tr ++ [disco_ServerVersion]).
Proof.
  intros Hinfo Hprefix Hsuffix.
  unfold ServerVersion, call, bind, emit, ret. rewrite Hinfo.
  rewrite Sprintf_dotted. unfold strings.Trim.
  rewrite (TrimRight_keeps _ Hsuffix), (TrimLeft_keeps _ Hprefix). reflexivity.
Qed.

(** A minor component made of plus signs only, the empty one among them,
    leaves nothing: the version is the major component followed by a dot,
    and no error is reported. *)
Theorem ServerVersion_of_a_minor_of_plus_signs c tr info n :
  discovery.DiscoveryInterface.ServerVersion (disco c) = Ok info ->
  version.Info.Minor info = pluses n ->
  ServerVersion c tr
  = (Returned (version.Info.Major info +:+ ".", None), tr ++ [disco_ServerVersion]).
Proof.
  intros Hinfo Hminor.
  unfold ServerVersion, call, bind, emit, ret. rewrite Hinfo.
  rewrite Sprintf_dotted, Hminor. unfold strings.Trim.
  rewrite TrimRight_pluses. reflexivity.
Qed.

(* ===================================================================== *)
(** * More on the fetcher                                                 *)
(* ===================================================================== *)

Lemma forallb_flat_map {A B} (p : B -> bool) (f : A -> list B) (l : list A) :
  (forall x, forallb p (f x) = true) -> forallb p (List.flat_map f l) = true.
Proof.
  intros Hall. induction l as [|x l IH]; [reflexivity|].
  simpl. now rewrite List.forallb_app, Hall, IH.
Qed.

Lemma filter_none {A} (p : A -> bool) (l : list A) :
  (forall x, In x l -> p x = false) -> List.filter p l = [].
Proof.
  induction l as [|x l IH]; intros Hnone; [reflexivity|].
  simpl. rewrite (Hnone x) by now left.
  apply IH. intros y Hy. apply Hnone. now right.
Qed.

Lemma filter_all {A} (p : A -> bool) (l : list A) :
  forallb p l = true -> List.filter p l = l.
Proof.
  induction l as [|x l IH]; [reflexivity|].
  simpl. intros Hall. apply andb_true_iff in Hall as [-> Hall]. now rewrite IH.
Qed.

Lemma forallb_excludes {A} (p q : A -> bool) (l : list A) :
  (forall x, p x = true -> q x = false) ->
  forallb p l = true -> List.filter q l = [].
Proof.
  intros Hpq Hall. apply filter_none. intros x Hx.
  apply Hpq. rewrite List.forallb_forall in Hall. now apply Hall.
Qed.

Section Traffic.

Variable Contains : string -> list string -> bool.

Lemma resolveCalls_mapping conf gvk : forallb isMapping (resolveCalls Contains conf gvk) = true.
Proof. unfold resolveCalls. now destruct (kindPasses Contains conf gvk). Qed.

Lemma listingCalls_listing c r : forallb isListing (listingCalls c r) = true.
Proof.
  unfold listingCalls. destruct (notListable r); [reflexivity|].
  now destruct (dynamic.Interface.List (clientset c) r).
Qed.

(** A fetch works in two rounds.  It first asks the mapper, for the kind
    references one after the other, and only then lists: every
    [RESTMapping] call comes before every list call and every line
    printed.  Its trace holds nothing else: no version query, no call of a
    constructor, nothing on the standard error. *)
Theorem fetch_resolves_then_lists c gvks conf tr :
  exists objs mappings listings,
    FetchK8sObjects Contains c gvks (Some conf) tr
    = (Returned objs, tr ++ mappings ++ listings)
    /\ forallb isMapping mappings = true
    /\ forallb isListing listings = true.
Proof.
  exists (fetched Contains c conf gvks),
         (List.flat_map (resolveCalls Contains conf) gvks),
         (List.flat_map (listingCalls c) (List.flat_map (resolve Contains c conf) gvks)).
  split; [apply FetchK8sObjects_run|]. split.
  - apply forallb_flat_map. intros gvk. apply resolveCalls_mapping.
  - apply forallb_flat_map. intros r. apply listingCalls_listing.
Qed.

Lemma mapping_calls_counted conf gvks :
  List.length (List.flat_map (resolveCalls Contains conf) gvks)
  = List.length (List.filter (kindPasses Contains conf) gvks).
Proof.
  induction gvks as [|gvk gvks IH]; [reflexivity|].
  simpl. rewrite List.length_app, IH. unfold resolveCalls.
  now destruct (kindPasses Contains conf gvk).
Qed.

Lemma resolved_counted c conf gvks :
  (List.length (List.flat_map (resolve Contains c conf) gvks)
   <= List.length (List.flat_map (resolveCalls Contains conf) gvks))%nat.
Proof.
  induction gvks as [|gvk gvks IH]; [reflexivity|].
  simpl. rewrite !List.length_app. unfold resolve at 1, resolveCalls at 1.
  destruct (kindPasses Contains conf gvk); simpl; [|lia].
  destruct (answerOf c gvk); simpl; lia.
Qed.

Lemma list_calls_counted c rs :
  (List.length (List.filter isListCall (List.flat_map (listingCalls c) rs))
   <= List.length rs)%nat.
Proof.
  induction rs as [|r rs IH]; [reflexivity|].
  simpl. rewrite List.filter_app, List.length_app. unfold listingCalls at 1.
  destruct (notListable r); simpl; [lia|].
  destruct (dynamic.Interface.List (clientset c) r); simpl; lia.
Qed.

Lemma mapping_calls_listed conf gvks :
  List.flat_map (resolveCalls Contains conf) gvks
  = List.map (fun gvk => mapper_RESTMapping (schema.GroupVersionKind.GroupKind gvk)
                                            (schema.GroupVersionKind.Version gvk))
             (List.filter (kindPasses Contains conf) gvks).
Proof.
  induction gvks as [|gvk gvks IH]; [reflexivity|].
  simpl. unfold resolveCalls at 1.
  destruct (kindPasses Contains conf gvk); simpl; now rewrite IH.
Qed.

Lemma list_calls_listed c conf gvks :
  List.filter isListCall
    (List.flat_map (listingCalls c) (List.flat_map (resolve Contains c conf) gvks))
  = List.flat_map
      (fun gvk =>
         match answerOf c gvk with
         | Ok m =>
           if notListable (meta.RESTMapping.Resource m) then []
           else [clientset_List (meta.RESTMapping.Resource m)]
         | Err _ => []
         end)
      (List.filter (kindPasses Contains conf) gvks).
Proof.
  induction gvks as [|gvk gvks IH]; [reflexivity|].
  simpl. rewrite List.flat_map_app, List.filter_app, IH. unfold resolve at 1.
  destruct (kindPasses Contains conf gvk); simpl; [|reflexivity].
  destruct (answerOf c gvk) as [m|err]; simpl; [|reflexivity].
  rewrite app_nil_r. unfold listingCalls.
  destruct (notListable (meta.RESTMapping.Resource m)); [reflexivity|].
  now destruct (dynamic.Interface.List (clientset c) (meta.RESTMapping.Resource m)).
Qed.

(** A fetch never asks twice, and asks for nothing it was not given.  Its
    [RESTMapping] calls are, in the order of the input, one for each kind
    reference that passes the kind filters, with the group, kind and
    version of that reference, and none for the others.  Its list calls
    are, in the same order, one for each of these references that the
    mapper resolved to a resource the fetcher lists, for that very
    resource, and none for the others: nothing unresolved is listed and a
    failed call is not repeated.  So there are as many [RESTMapping] calls
    as passing references, and at most as many list calls. *)
Theorem fetch_asks_once c gvks conf tr :
  exists objs calls,
    FetchK8sObjects Contains c gvks (Some conf) tr = (Returned objs, tr ++ calls)
    /\ List.filter isMapping calls
       = List.map (fun gvk => mapper_RESTMapping (schema.GroupVersionKind.GroupKind gvk)
                                                 (schema.GroupVersionKind.Version gvk))
                  (List.filter (kindPasses Contains conf) gvks)
    /\ List.filter isListCall calls
       = List.flat_map
           (fun gvk =>
              match answerOf c gvk with
              | Ok m =>
                if notListable (meta.RESTMapping.Resource m) then []
                else [clientset_List (meta.RESTMapping.Resource m)]
              | Err _ => []
              end)
           (List.filter (kindPasses Contains conf) gvks)
    /\ List.length (List.filter isMapping calls)
       = List.length (List.filter (kindPasses Contains conf) gvks)
    /\ (List.length (List.filter isListCall calls)
        <= List.length (List.filter isMapping calls))%nat.
Proof.
  exists (fetched Contains c conf gvks), (fetchCalls Contains c conf gvks).
  split; [apply FetchK8sObjects_run|].
  unfold fetchCalls. rewrite !List.filter_app.
  assert (Hmappings :
    List.filter isMapping (List.flat_map (resolveCalls Contains conf) gvks)
    = List.flat_map (resolveCalls Contains conf) gvks).
  { apply filter_all, forallb_flat_map. intros gvk. apply resolveCalls_mapping. }
  assert (Hnone :
    List.filter isMapping
      (List.flat_map (listingCalls c) (List.flat_map (resolve Contains c conf) gvks))
    = []).
  { apply (forallb_excludes isListing); [now intros []|].
    apply forallb_flat_map. intros r. apply listingCalls_listing. }
  assert (Hnone' :
    List.filter isListCall (List.flat_map (resolveCalls Contains conf) gvks) = []).
  { apply (forallb_excludes isMapping); [now intros []|].
    apply forallb_flat_map. intros gvk. apply resolveCalls_mapping. }
  rewrite Hmappings, Hnone, Hnone', app_nil_r. simpl.
  split; [apply mapping_calls_listed|].
  split; [apply list_calls_listed|].
  split.
  - apply mapping_calls_counted.
  - etransitivity; [apply list_calls_counted | apply resolved_counted].
Qed.

Lemma In_listingCalls_stdout c rs text :
  In (stdout text) (List.flat_map (listingCalls c) rs) <->
  exists r err,
    In r rs /\ notListable r = false
    /\ dynamic.Interface.List (clientset c) r = Err err
    /\ text = diagnostic r err.
Proof.
  rewrite List.in_flat_map. unfold listingCalls. split.
  - intros [r [Hr Hin]].
    destruct (notListable r) eqn:Hskip; [contradiction|].
    destruct (dynamic.Interface.List (clientset c) r) as [l|err] eqn:Hlist.
    + destruct Hin as [Hin|[]]. discriminate.
    + destruct Hin as [Hin|[Hin|[]]]; [discriminate|].
      injection Hin as <-. exists r, err. auto.
  - intros [r [err (Hr & Hskip & Hlist & ->)]].
    exists r. split; [assumption|]. rewrite Hskip, Hlist. right. now left.
Qed.

Lemma In_listingCalls_call c rs r :
  In (clientset_List r) (List.flat_map (listingCalls c) rs) <->
  In r rs /\ notListable r = false.
Proof.
  rewrite List.in_flat_map. unfold listingCalls. split.
  - intros [r' [Hr Hin]].
    destruct (notListable r') eqn:Hskip; [contradiction|].
    destruct (dynamic.Interface.List (clientset c) r').
    + destruct Hin as [Hin|[]]. injection Hin as <-. auto.
    + destruct Hin as [Hin|[Hin|[]]]; [|discriminate]. injection Hin as <-. auto.
  - intros [Hr Hskip]. exists r. split; [assumption|]. rewrite Hskip.
    destruct (dynamic.Interface.List (clientset c) r); now left.
Qed.

Lemma not_In_resolveCalls conf gvks e :
  isMapping e = false -> ~ In e (List.flat_map (resolveCalls Contains conf) gvks).
Proof.
  intros He Hin.
  assert (Hall := forallb_flat_map isMapping (resolveCalls Contains conf) gvks
                    (resolveCalls_mapping conf)).
  rewrite List.forallb_forall in Hall. specialize (Hall e Hin). congruence.
Qed.

(** The standard output of a fetch tells of the list calls that failed, and
    of nothing else: a line is printed exactly for a list call the run made
    and the cluster answered with an error, and it names the resource and
    the error.  A kind the mapper cannot resolve leaves no line. *)
Theorem fetch_prints_the_failed_lists c gvks conf tr :
  exists objs calls,
    FetchK8sObjects Contains c gvks (Some conf) tr = (Returned objs, tr ++ calls)
    /\ forall text,
         In (stdout text) calls <->
         exists r err,
           In (clientset_List r) calls
           /\ dynamic.Interface.List (clientset c) r = Err err
           /\ text = diagnostic r err.
Proof.
  exists (fetched Contains c conf gvks), (fetchCalls Contains c conf gvks).
  split; [apply FetchK8sObjects_run|].
  intros text. unfold fetchCalls. rewrite List.in_app_iff, In_listingCalls_stdout.
  split.
  - intros [Hin | [r [err (Hr & Hskip & Hlist & Htext)]]].
    + now apply not_In_resolveCalls in Hin.
    + exists r, err. repeat split; try assumption.
      apply List.in_app_iff. right. now apply In_listingCalls_call.
  - intros [r [err (Hcall & Hlist & Htext)]]. right.
    apply List.in_app_iff in Hcall as [Hcall | Hcall].
    + now apply not_In_resolveCalls in Hcall.
    + apply In_listingCalls_call in Hcall as [Hr Hskip]. exists r, err. auto.
Qed.

(** Fetching for two lists of kind references, one after the other, and
    fetching once for the two lists joined return the same objects in the
    same order.  So the result follows the order of the kind references,
    and a kind reference given twice has its objects twice: nothing is
    merged or removed. *)
Theorem fetch_of_joined_kinds c gvks gvks' conf tr objs objs' tr1 tr2 :
  FetchK8sObjects Contains c gvks (Some conf) tr = (Returned objs, tr1) ->
  FetchK8sObjects Contains c gvks' (Some conf) tr1 = (Returned objs', tr2) ->
  fst (FetchK8sObjects Contains c (gvks ++ gvks') (Some conf) tr)
  = Returned (objs ++ objs').
Proof.
  rewrite !FetchK8sObjects_run. intros [= <- _] [= <- _]. simpl.
  unfold fetched. now rewrite !List.flat_map_app.
Qed.

(** The order of the kind references decides the order of the result and
    nothing more: for the same references in another order, the same
    objects are returned, as often, in another order. *)
Theorem fetch_of_reordered_kinds c gvks gvks' conf tr objs tr1 :
  Permutation gvks gvks' ->
  FetchK8sObjects Contains c gvks (Some conf) tr = (Returned objs, tr1) ->
  exists objs',
    fst (FetchK8sObjects Contains c gvks' (Some conf) tr) = Returned objs'
    /\ Permutation objs objs'.
Proof.
  intros Hperm. rewrite !FetchK8sObjects_run. intros [= <- _].
  exists (fetched Contains c conf gvks'). split; [reflexivity|].
  unfold fetched. now do 2 apply Permutation_flat_map.
Qed.

(** When the kind filters stop every kind reference, the cluster is not
    asked anything: the fetch returns no object and makes no call. *)
Theorem fetch_of_stopped_kinds c gvks conf tr :
  (forall gvk, In gvk gvks -> kindPasses Contains conf gvk = false) ->
  FetchK8sObjects Contains c gvks (Some conf) tr = (Returned [], tr).
Proof.
  intros Hstopped. rewrite FetchK8sObjects_run.
  assert (Hresolve : List.flat_map (resolve Contains c conf) gvks = []).
  { induction gvks as [|gvk gvks IH]; [reflexivity|].
    simpl. unfold resolve at 1. rewrite (Hstopped gvk) by now left.
    apply IH. intros g Hg. apply Hstopped. now right. }
  assert (Hcalls : List.flat_map (resolveCalls Contains conf) gvks = []).
  { induction gvks as [|gvk gvks IH]; [reflexivity|].
    simpl. unfold resolveCalls at 1. rewrite (Hstopped gvk) by now left.
    apply IH; [intros g Hg; apply Hstopped; now right|].
    simpl in Hresolve. unfold resolve at 1 in Hresolve.
    now rewrite (Hstopped gvk) in Hresolve by now left. }
  unfold fetched, fetchCalls. rewrite Hresolve, Hcalls. simpl.
  now rewrite app_nil_r.
Qed.

End Traffic.

(* ===================================================================== *)
(** * The resources that are not listed, by name                          *)
(* ===================================================================== *)

Lemma forall_bool_spec f : forall_bool f = true -> forall b, f b = true.
Proof.
  unfold forall_bool. intros H b. apply andb_true_iff in H as [Ht Hf].
  now destruct b.
Qed.

Lemma forall_ascii_spec f : forall_ascii f = true -> forall a, f a = true.
Proof.
  intros H [b0 b1 b2 b3 b4 b5 b6 b7]. unfold forall_ascii in H.
  apply (forall_bool_spec _ (forall_bool_spec _ (forall_bool_spec _
          (forall_bool_spec _ (forall_bool_spec _ (forall_bool_spec _
          (forall_bool_spec _ (forall_bool_spec _ H b0) b1) b2) b3) b4) b5) b6) b7).
Qed.

Lemma asciiFold_ok_all a b : asciiFold_ok a b = true.
Proof.
  revert b. apply forall_ascii_spec. revert a. apply forall_ascii_spec.
  vm_compute. reflexivity.
Qed.

Lemma asciiFold_spec a b :
  (utf8.byte a <? utf8.RuneSelf) = true ->
  (utf8.byte b <? utf8.RuneSelf) = true ->
  (utf8.RuneSelf <=? Z.lor (utf8.byte a) (utf8.byte b)) = false
  /\ asciiFold a b = Ascii.eqb (strings.lower a) (strings.lower b).
Proof.
  intros Ha Hb. assert (Hok := asciiFold_ok_all a b).
  unfold asciiFold_ok in Hok. rewrite Ha, Hb in Hok. simpl in Hok.
  apply andb_true_iff in Hok as [Hpath Hfold].
  apply negb_true_iff in Hpath. apply Bool.eqb_prop in Hfold. auto.
Qed.

Lemma EqualFold_ascii_step a s b t :
  (utf8.RuneSelf <=? Z.lor (utf8.byte a) (utf8.byte b)) = false ->
  strings.EqualFold (String a s) (String b t) = asciiFold a b && strings.EqualFold s t.
Proof.
  intros Hpath. simpl. rewrite Hpath. unfold asciiFold.
  destruct (utf8.byte b =? utf8.byte a); [reflexivity|]. simpl.
  destruct (utf8.byte b <? utf8.byte a);
    match goal with |- context [strings.isUpper ?x && ?y] => now destruct (strings.isUpper x && y) end.
Qed.

(** On ASCII text [strings.EqualFold] is equality after [strings.ToLower]. *)
Lemma EqualFold_ascii s t :
  isASCII s = true -> isASCII t = true ->
  strings.EqualFold s t = String.eqb (strings.ToLower s) (strings.ToLower t).
Proof.
  revert t. induction s as [|a s IH]; intros [|b t] Hs Ht; try reflexivity.
  simpl in Hs, Ht.
  apply andb_true_iff in Hs as [Ha Hs]. apply andb_true_iff in Ht as [Hb Ht].
  destruct (asciiFold_spec a b Ha Hb) as [Hpath Hfold].
  rewrite (EqualFold_ascii_step a s b t Hpath), Hfold, (IH t Hs Ht).
  change (strings.ToLower (String a s)) with (String (strings.lower a) (strings.ToLower s)).
  change (strings.ToLower (String b t)) with (String (strings.lower b) (strings.ToLower t)).
  change (String.eqb (String (strings.lower a) (strings.ToLower s))
                     (String (strings.lower b) (strings.ToLower t)))
    with (if Ascii.eqb (strings.lower a) (strings.lower b)
          then String.eqb (strings.ToLower s) (strings.ToLower t) else false).
  now destruct (Ascii.eqb (strings.lower a) (strings.lower b)).
Qed.

(** For a resource whose plural name is ASCII, the third test of the
    fetcher is an equality, not a containment: the resource is left
    unlisted exactly when its name contains ["lists"], contains
    ["reviews"], or is ["bindings"] once its capital letters are made
    small.  So [rolebindings] is listed, and [BINDINGS] is not. *)
Theorem notListable_on_ascii_names r :
  isASCII (schema.GroupVersionResource.Resource r) = true ->
  notListable r
  = strings.Contains (schema.GroupVersionResource.Resource r) "lists"
    || strings.Contains (schema.GroupVersionResource.Resource r) "reviews"
    || String.eqb (strings.ToLower (schema.GroupVersionResource.Resource r)) "bindings".
Proof.
  intros Hascii. unfold notListable.
  now rewrite (EqualFold_ascii _ "bindings" Hascii eq_refl).
Qed.

(* ===================================================================== *)
(** * These properties on the small cluster                               *)
(* ===================================================================== *)

(** With no path and no context, on the developer's machine. *)
Lemma NewCluster_returns_only_built_witness :
  exists config restConfig,
    GetStartingConfig demo.laptop (pathOptionsOf demo.laptop "") = Ok config
    /\ ClientConfig demo.laptop config (overridesOf "") = Ok restConfig
    /\ builtOn demo.laptop restConfig demo.handle.
Proof.
  apply (NewCluster_returns_only_built demo.laptop "" "" [] demo.handle
           [clientcmd_GetStartingConfig (pathOptionsOf demo.laptop "");
            clientcmd_ClientConfig demo.kubeconfigFile (overridesOf "");
            discovery_NewDiscoveryClientForConfig
              (rest.Config.setWarningHandler rest.NoWarnings demo.kubeconfig);
            dynamic_NewForConfig
              (rest.Config.setWarningHandler rest.NoWarnings demo.kubeconfig)]).
  reflexivity.
Defined.

(** A context the kubeconfig does not have. *)
Lemma NewCluster_loses_the_ClientConfig_error_witness :
  GetStartingConfig demo.laptop (pathOptionsOf demo.laptop "") = Ok demo.kubeconfigFile
  /\ ClientConfig demo.laptop demo.kubeconfigFile (overridesOf "prod")
     = Err "context was not found for specified context: prod"
  /\ NewCluster demo.laptop "" "prod" []
     = (Panicked nilDereference,
        [] ++ [clientcmd_GetStartingConfig (pathOptionsOf demo.laptop "");
               clientcmd_ClientConfig demo.kubeconfigFile (overridesOf "prod")]).
Proof.
  split; [reflexivity|]. split; [reflexivity|].
  apply (NewCluster_loses_the_ClientConfig_error demo.laptop "" "prod" []
           demo.kubeconfigFile "context was not found for specified context: prod");
    reflexivity.
Defined.

(** A kubeconfig that does not parse: one call, and the panic; one that is
    not there loads as an empty configuration, and the second call fails. *)
Lemma NewCluster_calls_in_order_witness :
  NewCluster demo.laptop "/home/dev/.kube/broken" "" []
  = (Panicked "yaml: line 3: mapping values are not allowed in this context",
     [] ++ [clientcmd_GetStartingConfig (pathOptionsOf demo.laptop "/home/dev/.kube/broken")])
  /\ NewCluster demo.laptop "/tmp/none" "" []
     = (Panicked nilDereference,
        [] ++ [clientcmd_GetStartingConfig (pathOptionsOf demo.laptop "/tmp/none");
               clientcmd_ClientConfig
                 {| clientcmd.Config.CurrentContext := ""; clientcmd.Config.Contexts := [] |}
                 (overridesOf "")]).
Proof.
  split.
  - exact (NewCluster_calls_in_order demo.laptop "/home/dev/.kube/broken" "" []).
  - exact (NewCluster_calls_in_order demo.laptop "/tmp/none" "" []).
Defined.

Lemma local_dev_ignores_the_injected_configuration_witness :
  NewClusterFromEnvOrConfig demo.laptop (Some demo.kubeconfig) []
  = NewClusterFromEnvOrConfig demo.laptop None [].
Proof.
  apply (local_dev_ignores_the_injected_configuration demo.laptop). reflexivity.
Defined.

(** A second call on the developer's machine. *)
Lemma local_dev_constructor_runs_once_witness :
  NewClusterFromEnvOrConfig demo.laptop None [] = (Returned demo.handle, demo.firstRun)
  /\ NewClusterFromEnvOrConfig demo.laptop None demo.firstRun
     = (Panicked (kubeconfigRedefined demo.laptop),
        demo.firstRun ++ [os_Getenv "USE_LOCAL_DEV_MODE"; user_Current;
                          stderr (kubeconfigRedefined demo.laptop +:+ fmt.newline)]).
Proof.
  assert (Hrun : NewClusterFromEnvOrConfig demo.laptop None []
                 = (Returned demo.handle, demo.firstRun)) by reflexivity.
  split; [exact Hrun|].
  exact (local_dev_constructor_runs_once demo.laptop None None []
           (Returned demo.handle) demo.firstRun demo.dev eq_refl eq_refl Hrun).
Defined.

Lemma ServerVersion_keeps_a_plain_minor_witness :
  ServerVersion (demo.clusterOf (Ok (demo.info "1" "28"))) []
  = (Returned ("1" +:+ "." +:+ "28", None), [] ++ [disco_ServerVersion]).
Proof.
  apply (ServerVersion_keeps_a_plain_minor (demo.clusterOf (Ok (demo.info "1" "28"))) []
           (demo.info "1" "28"));
    reflexivity.
Defined.

Lemma ServerVersion_of_a_minor_of_plus_signs_witness :
  ServerVersion (demo.clusterOf (Ok (demo.info "1" "++"))) []
  = (Returned ("1" +:+ ".", None), [] ++ [disco_ServerVersion]).
Proof.
  apply (ServerVersion_of_a_minor_of_plus_signs
           (demo.clusterOf (Ok (demo.info "1" "++"))) [] (demo.info "1" "++") 2);
    reflexivity.
Defined.

(** Pods, then nodes. *)
Lemma fetch_of_joined_kinds_witness :
  fst (FetchK8sObjects ContainsName demo.cluster ([demo.Pod] ++ [demo.Node])
         (Some demo.everything) [])
  = Returned ([demo.web; demo.canary] ++ [demo.worker]).
Proof.
  apply (fetch_of_joined_kinds ContainsName demo.cluster [demo.Pod] [demo.Node]
           demo.everything [] [demo.web; demo.canary] [demo.worker]
           [demo.resolving demo.Pod; demo.listingOf demo.pods]
           [demo.resolving demo.Pod; demo.listingOf demo.pods;
            demo.resolving demo.Node; demo.listingOf demo.nodes]);
    vm_compute; reflexivity.
Defined.

(** Nodes, then pods. *)
Lemma fetch_of_reordered_kinds_witness :
  exists objs',
    fst (FetchK8sObjects ContainsName demo.cluster [demo.Node; demo.Pod]
           (Some demo.everything) [])
    = Returned objs'
    /\ Permutation [demo.web; demo.canary; demo.worker] objs'.
Proof.
  apply (fetch_of_reordered_kinds ContainsName demo.cluster
           [demo.Pod; demo.Node] [demo.Node; demo.Pod] demo.everything []
           [demo.web; demo.canary; demo.worker]
           [demo.resolving demo.Pod; demo.resolving demo.Node;
            demo.listingOf demo.pods; demo.listingOf demo.nodes]).
  - apply perm_swap.
  - vm_compute. reflexivity.
Defined.

(** Secrets only, and secrets denied. *)
Lemma fetch_of_stopped_kinds_witness :
  FetchK8sObjects ContainsName demo.cluster [demo.Secret; demo.Secret]
    (Some demo.denySecrets) []
  = (Returned [], []).
Proof.
  apply (fetch_of_stopped_kinds ContainsName demo.cluster [demo.Secret; demo.Secret]
           demo.denySecrets []).
  intros gvk [<-|[<-|[]]]; reflexivity.
Defined.

Lemma notListable_on_ascii_names_witness :
  notListable demo.rolebindings
  = strings.Contains "rolebindings" "lists"
    || strings.Contains "rolebindings" "reviews"
    || String.eqb (strings.ToLower "rolebindings") "bindings".
Proof.
  apply (notListable_on_ascii_names demo.rolebindings). reflexivity.
Defined.
